(** * CyberRisk Advisor: the [/analyze_logs] endpoint of [main.py]

    A shallow embedding of [main.py]: the request and response models, the
    prompt construction, the outbound call of [call_agi_agent], and the
    lenient JSON recovery and defaulting of [analyze_logs].

    Modelling choices:
    - a Python [str] is a list of Unicode code points ([list Z]);
    - [json.loads] is modelled after CPython's C scanner ([_json.c]):
      whitespace is [ \t\n\r], strings are strict (no raw control
      characters), numbers are an optional minus, [0] or a digit run not starting
      with [0], an optional fraction and an optional exponent,
      the constants [NaN], [Infinity], [-Infinity] are accepted, and an object
      is a [dict] built by successive [d[key] = value];
    - a Python [float] is kept as the exact decimal [m * 10^e] of its
      literal (IEEE rounding is not modelled);
    - the recursion limit of the decoder is not modelled (the fuel given to
      the parser is never the limiting factor, see [loads]);
    - the operator console output ([print]) is not modelled. *)

From Stdlib Require Import Strings.String Strings.Ascii.
From Stdlib Require Import ZArith List Bool Lia.
Set Warnings "-register-all".
Import ListNotations.
Open Scope Z_scope.

(** ** Python strings *)

Definition pystr := list Z.

(** A Rocq string literal as a Python [str] (its bytes as code points). *)
Definition py (s : String.string) : pystr :=
  map (fun a => Z.of_nat (Ascii.nat_of_ascii a)) (String.list_ascii_of_string s).

(** Helper for writing JSON texts in examples: every apostrophe of the
    literal stands for a double quote. *)
Definition pyq (s : String.string) : pystr :=
  map (fun c => if c =? 39 then 34 else c) (py s).

Arguments py s%_string.
Arguments pyq s%_string.

(** [str.isspace] on one code point (the characters [str.strip()] removes). *)
Definition py_isspace (c : Z) : bool :=
  ((9 <=? c) && (c <=? 13)) || ((28 <=? c) && (c <=? 32)) || (c =? 133)
  || (c =? 160) || (c =? 5760) || ((8192 <=? c) && (c <=? 8202))
  || (c =? 8232) || (c =? 8233) || (c =? 8239) || (c =? 8287)
  || (c =? 12288).

(** [str.lstrip] / [str.rstrip] / [str.strip] for a set of characters given
    as a predicate. *)
Fixpoint lstrip_by (P : Z -> bool) (s : pystr) : pystr :=
  match s with
  | [] => []
  | c :: r => if P c then lstrip_by P r else s
  end.

Definition rstrip_by (P : Z -> bool) (s : pystr) : pystr :=
  rev (lstrip_by P (rev s)).

Definition strip_by (P : Z -> bool) (s : pystr) : pystr :=
  rstrip_by P (lstrip_by P s).

(** [s.strip()] *)
Definition py_strip (s : pystr) : pystr := strip_by py_isspace s.

(** [s.strip("`")] *)
Definition is_backtick (c : Z) : bool := c =? 96.
Definition py_strip_backticks (s : pystr) : pystr := strip_by is_backtick s.

Fixpoint starts_with (p s : pystr) : bool :=
  match p, s with
  | [], _ => true
  | a :: p', b :: s' => (a =? b) && starts_with p' s'
  | _ :: _, [] => false
  end.

(** [s.replace(old, new, 1)] *)
Fixpoint replace1 (old new s : pystr) : pystr :=
  if starts_with old s then new ++ skipn (length old) s
  else match s with
       | [] => []
       | c :: r => c :: replace1 old new r
       end.

(** ** Python values produced by [json.loads] *)

Inductive pyfloat :=
| FDec (mantissa : Z) (exponent : Z)   (** [mantissa * 10^exponent] *)
| FNaN
| FInf (negative : bool).

Inductive json :=
| JNull
| JBool (b : bool)
| JInt (z : Z)
| JFloat (f : pyfloat)
| JStr (s : pystr)
| JArr (items : list json)
| JObj (dict : list (pystr * json)).

(** [dict.get(key)] on an association list whose keys are unique. *)
Fixpoint dict_get (k : pystr) (d : list (pystr * json)) : option json :=
  match d with
  | [] => None
  | (k', v) :: d' => if list_eq_dec Z.eq_dec k k' then Some v else dict_get k d'
  end.

(** [d[key] = value]: replaces the value in place, or appends a new key. *)
Fixpoint dict_set (k : pystr) (v : json) (d : list (pystr * json))
  : list (pystr * json) :=
  match d with
  | [] => [(k, v)]
  | (k', v') :: d' =>
      if list_eq_dec Z.eq_dec k k' then (k', v) :: d' else (k', v') :: dict_set k v d'
  end.

(** [dict.get(key, default)] *)
Definition dict_get_or (k : pystr) (dflt : json) (d : list (pystr * json)) : json :=
  match dict_get k d with Some v => v | None => dflt end.

(** ** Python exceptions and results *)

Inductive exn :=
| HTTPException (status_code : Z) (detail : pystr)
| JSONDecodeError
| TypeError
| KeyError
| IndexError
| AttributeError
| ValidationError
| TransportError.

Inductive pyresult (A : Type) :=
| Ok (a : A)
| Err (e : exn).
Arguments Ok {A} a.
Arguments Err {A} e.

(** ** [json.loads] *)

Definition is_json_ws (c : Z) : bool := (c =? 32) || (c =? 9) || (c =? 10) || (c =? 13).

Fixpoint skip_ws (s : pystr) : pystr :=
  match s with
  | c :: r => if is_json_ws c then skip_ws r else s
  | [] => []
  end.

Definition is_digit (c : Z) : bool := (48 <=? c) && (c <=? 57).

Fixpoint span_digits (s : pystr) : pystr * pystr :=
  match s with
  | c :: r => if is_digit c then let '(ds, r') := span_digits r in (c :: ds, r') else ([], s)
  | [] => ([], [])
  end.

Definition digits_value (ds : pystr) : Z :=
  fold_left (fun acc d => acc * 10 + (d - 48)) ds 0.

Definition hex_value (c : Z) : option Z :=
  if is_digit c then Some (c - 48)
  else if (97 <=? c) && (c <=? 102) then Some (c - 87)
  else if (65 <=? c) && (c <=? 70) then Some (c - 55)
  else None.

Definition hex4 (a b c d : Z) : option Z :=
  match hex_value a, hex_value b, hex_value c, hex_value d with
  | Some w, Some x, Some y, Some z => Some (((w * 16 + x) * 16 + y) * 16 + z)
  | _, _, _, _ => None
  end.

Definition is_high_surrogate (u : Z) : bool := (55296 <=? u) && (u <=? 56319).
Definition is_low_surrogate (u : Z) : bool := (56320 <=? u) && (u <=? 57343).

(** The character an escape [\e] stands for ([e] other than [u]). *)
Definition simple_escape (e : Z) : option Z :=
  if e =? 34 then Some 34          (* escaped quote *)
  else if e =? 92 then Some 92     (* escaped backslash *)
  else if e =? 47 then Some 47     (* escaped slash *)
  else if e =? 98 then Some 8      (* \b *)
  else if e =? 102 then Some 12    (* \f *)
  else if e =? 110 then Some 10    (* \n *)
  else if e =? 114 then Some 13    (* \r *)
  else if e =? 116 then Some 9     (* \t *)
  else None.

(** A piece of a JSON string literal: a character (written out or as a
    one-letter escape) or a [\uXXXX] escape. *)
Inductive strtok :=
| Lit (c : Z)
| Esc (u : Z).

Definition push_tok (t : strtok) (o : option (list strtok * pystr))
  : option (list strtok * pystr) :=
  match o with
  | Some (ts, rest) => Some (t :: ts, rest)
  | None => None
  end.

(** The loop of [scanstring] (strict mode), started just after the opening
    quote: the pieces of the literal and the input after the closing quote.
    A raw control character, an unknown escape or a short [\u] escape is an
    error. *)
Fixpoint scan_chunks (s : pystr) : option (list strtok * pystr) :=
  match s with
  | [] => None
  | c :: r =>
      if c =? 34 then Some ([], r)
      else if c =? 92 then
        match r with
        | [] => None
        | e :: r1 =>
            if e =? 117 then
              match r1 with
              | a :: b :: c2 :: d :: r2 =>
                  match hex4 a b c2 d with
                  | Some u => push_tok (Esc u) (scan_chunks r2)
                  | None => None
                  end
              | _ => None
              end
            else
              match simple_escape e with
              | Some x => push_tok (Lit x) (scan_chunks r1)
              | None => None
              end
        end
      else if c <? 32 then None
      else push_tok (Lit c) (scan_chunks r)
  end.

(** A [\uXXXX] high surrogate immediately followed by a [\uXXXX] low
    surrogate is one character; any other escape stands for itself. *)
Fixpoint join_surrogates (ts : list strtok) : pystr :=
  match ts with
  | [] => []
  | Lit c :: ts' => c :: join_surrogates ts'
  | Esc u :: ((Esc u2 :: ts'') as ts') =>
      if is_high_surrogate u && is_low_surrogate u2
      then (65536 + (u - 55296) * 1024 + (u2 - 56320)) :: join_surrogates ts''
      else u :: join_surrogates ts'
  | Esc u :: ts' => u :: join_surrogates ts'
  end.

(** [scanstring]: the decoded string and the input after the closing quote. *)
Definition scanstring (s : pystr) : option (pystr * pystr) :=
  match scan_chunks s with
  | Some (ts, rest) => Some (join_surrogates ts, rest)
  | None => None
  end.

(** The number scanner [_match_number_unicode]: the integer part. *)
Definition int_part (s : pystr) : option (pystr * pystr) :=
  match s with
  | c :: r =>
      if c =? 48 then Some ([c], r)
      else if (49 <=? c) && (c <=? 57) then
        let '(ds, r') := span_digits r in Some (c :: ds, r')
      else None
  | [] => None
  end.

(** A [.] followed by at least one digit. *)
Definition frac_part (s : pystr) : option pystr * pystr :=
  match s with
  | c :: d :: r =>
      if (c =? 46) && is_digit d then
        let '(ds, r') := span_digits r in (Some (d :: ds), r')
      else (None, s)
  | _ => (None, s)
  end.

(** An [e] or [E], an optional sign and at least one digit; otherwise the
    scanner backtracks to the [e]. *)
Definition exp_part (s : pystr) : option Z * pystr :=
  match s with
  | c :: r =>
      if (c =? 101) || (c =? 69) then
        let '(sg, r1) :=
          match r with
          | x :: r' => if x =? 45 then (-1, r') else if x =? 43 then (1, r') else (1, r)
          | [] => (1, r)
          end in
        match span_digits r1 with
        | ([], _) => (None, s)
        | (ds, r2) => (Some (sg * digits_value ds), r2)
        end
      else (None, s)
  | [] => (None, s)
  end.

(** [int(integer)] when there is neither fraction nor exponent, otherwise
    [float(integer + frac + exp)]. *)
Definition make_number (neg : bool) (ids : pystr) (frac : option pystr) (exp : option Z)
  : json :=
  let sg := if neg then -1 else 1 in
  match frac, exp with
  | None, None => JInt (sg * digits_value ids)
  | _, _ =>
      let fs := match frac with Some fs => fs | None => [] end in
      let e := match exp with Some e => e | None => 0 end in
      JFloat (FDec (sg * digits_value (ids ++ fs)) (e - Z.of_nat (length fs)))
  end.

(** The number after its optional minus sign. *)
Definition parse_unsigned (neg : bool) (s1 : pystr) : option (json * pystr) :=
  match int_part s1 with
  | None => None
  | Some (ids, s2) =>
      let '(frac, s3) := frac_part s2 in
      let '(exp, s4) := exp_part s3 in
      Some (make_number neg ids frac exp, s4)
  end.

Definition parse_number (s : pystr) : option (json * pystr) :=
  match s with
  | c :: r => if c =? 45 then parse_unsigned true r else parse_unsigned false s
  | [] => parse_unsigned false s
  end.

(** The named constants of [scan_once]: [null], [true], [false], [NaN],
    [Infinity], [-Infinity]. *)
Definition parse_constant (s : pystr) : option (json * pystr) :=
  if starts_with (py "null") s then Some (JNull, skipn 4 s)
  else if starts_with (py "true") s then Some (JBool true, skipn 4 s)
  else if starts_with (py "false") s then Some (JBool false, skipn 5 s)
  else if starts_with (py "NaN") s then Some (JFloat FNaN, skipn 3 s)
  else if starts_with (py "Infinity") s then Some (JFloat (FInf false), skipn 8 s)
  else if starts_with (py "-Infinity") s then Some (JFloat (FInf true), skipn 9 s)
  else None.

(** [scan_once] ([parse_value]) with [_parse_object] ([parse_members], started
    at the opening quote of a key) and [_parse_array] ([parse_elements],
    started at the first element). Each call consumes fuel; the fuel given
    by [loads] exceeds the input length, and every call consumes input. *)
Fixpoint parse_value (fuel : nat) (s : pystr) {struct fuel} : option (json * pystr) :=
  match fuel with
  | O => None
  | S f =>
      match s with
      | [] => None
      | c :: r =>
          if c =? 34 then
            match scanstring r with
            | Some (str, r') => Some (JStr str, r')
            | None => None
            end
          else if c =? 123 then
            match skip_ws r with
            | d :: r2 => if d =? 125 then Some (JObj [], r2) else parse_members f [] (skip_ws r)
            | [] => None
            end
          else if c =? 91 then
            match skip_ws r with
            | d :: r2 => if d =? 93 then Some (JArr [], r2) else parse_elements f [] (skip_ws r)
            | [] => None
            end
          else
            match parse_constant s with
            | Some res => Some res
            | None => parse_number s
            end
      end
  end
with parse_members (fuel : nat) (acc : list (pystr * json)) (s : pystr) {struct fuel}
  : option (json * pystr) :=
  match fuel with
  | O => None
  | S f =>
      match s with
      | q :: s1 =>
          if q =? 34 then
            match scanstring s1 with
            | None => None
            | Some (key, s2) =>
                match skip_ws s2 with
                | c :: s3 =>
                    if c =? 58 then
                      match parse_value f (skip_ws s3) with
                      | None => None
                      | Some (v, s4) =>
                          let acc' := dict_set key v acc in
                          match skip_ws s4 with
                          | d :: s5 =>
                              if d =? 125 then Some (JObj acc', s5)
                              else if d =? 44 then parse_members f acc' (skip_ws s5)
                              else None
                          | [] => None
                          end
                      end
                    else None
                | [] => None
                end
            end
          else None
      | [] => None
      end
  end
with parse_elements (fuel : nat) (acc : list json) (s : pystr) {struct fuel}
  : option (json * pystr) :=
  match fuel with
  | O => None
  | S f =>
      match parse_value f s with
      | None => None
      | Some (v, s1) =>
          match skip_ws s1 with
          | d :: s2 =>
              if d =? 93 then Some (JArr (rev (v :: acc)), s2)
              else if d =? 44 then parse_elements f (v :: acc) (skip_ws s2)
              else None
          | [] => None
          end
      end
  end.

(** [json.loads(s)]: a leading BOM is refused, then
    [raw_decode(s, _w(s, 0).end())] and only whitespace may follow. *)
Definition loads (s : pystr) : pyresult json :=
  match s with
  | c :: _ => if c =? 65279 then Err JSONDecodeError else
      match parse_value (S (length s)) (skip_ws s) with
      | Some (v, r) => match skip_ws r with [] => Ok v | _ => Err JSONDecodeError end
      | None => Err JSONDecodeError
      end
  | [] => Err JSONDecodeError
  end.

(** ** The lenient recovery of the model output ([analyze_logs], lines 197-203) *)

(** [cleaned = raw_response.strip().strip("`")] then
    [cleaned = cleaned.replace("json", "", 1).strip()] *)
Definition clean (raw_response : pystr) : pystr :=
  let cleaned := py_strip_backticks (py_strip raw_response) in
  py_strip (replace1 (py "json") [] cleaned).

Definition parse_agent_output (raw_response : pystr) : pyresult json :=
  match loads raw_response with
  | Ok result => Ok result
  | Err JSONDecodeError => loads (clean raw_response)
  | Err e => Err e
  end.

(** ** Data models (pydantic) *)

Record LogAnalysisRequest := {
  logs : pystr;
  environment : option pystr;
  question : option pystr
}.

Record Detection := {
  title : pystr;
  description : pystr;
  severity : pystr;
  indicators : list pystr
}.

Record LogAnalysisResponse := {
  overall_risk_score : pyfloat;
  summary : pystr;
  detections : list Detection;
  recommended_actions : list pystr;
  queries_to_run : list pystr
}.

Definition bind {A B} (m : pyresult A) (k : A -> pyresult B) : pyresult B :=
  match m with
  | Ok a => k a
  | Err e => Err e
  end.

Notation "'let*' x ':=' m 'in' k" := (bind m (fun x => k))
  (at level 200, x name, m at level 100, k at level 200).

Fixpoint map_result {A B} (f : A -> pyresult B) (l : list A) : pyresult (list B) :=
  match l with
  | [] => Ok []
  | x :: l' =>
      let* y := f x in
      let* ys := map_result f l' in
      Ok (y :: ys)
  end.

(** Field validation of a [str] field and of a [List[str]] field (lax mode:
    a JSON value validates only as its own type). *)
Definition validate_str (v : json) : option pystr :=
  match v with JStr s => Some s | _ => None end.

Fixpoint validate_str_items (l : list json) : option (list pystr) :=
  match l with
  | [] => Some []
  | v :: l' =>
      match validate_str v, validate_str_items l' with
      | Some s, Some ss => Some (s :: ss)
      | _, _ => None
      end
  end.

Definition validate_list_str (v : json) : option (list pystr) :=
  match v with JArr l => validate_str_items l | _ => None end.

(** The Python float [0.0]. *)
Definition py_0_0 : pyfloat := FDec 0 0.

(** ** Python operations used by [analyze_logs] *)

(** [obj.get(key, default)]: only a [dict] has [.get]. *)
Definition py_get (obj : json) (key : pystr) (dflt : json) : pyresult json :=
  match obj with
  | JObj d => Ok (dict_get_or key dflt d)
  | _ => Err AttributeError
  end.

(** [for x in v]: a list yields its items, a [str] its characters, a [dict]
    its keys; other values are not iterable. *)
Definition py_iter (v : json) : pyresult (list json) :=
  match v with
  | JArr l => Ok l
  | JStr s => Ok (map (fun c => JStr [c]) s)
  | JObj d => Ok (map (fun kv => JStr (fst kv)) d)
  | _ => Err TypeError
  end.

(** [v[key]] for a string key. *)
Definition py_subscript_key (v : json) (key : pystr) : pyresult json :=
  match v with
  | JObj d => match dict_get key d with Some x => Ok x | None => Err KeyError end
  | _ => Err TypeError
  end.

(** [v[0]] *)
Definition py_subscript_0 (v : json) : pyresult json :=
  match v with
  | JArr (x :: _) => Ok x
  | JArr [] => Err IndexError
  | JStr (c :: _) => Ok (JStr [c])
  | JStr [] => Err IndexError
  | JObj _ => Err KeyError
  | _ => Err TypeError
  end.

Section Pydantic.

(** pydantic's lax coercion of a [str] to [float] is left abstract. *)
Variable lax_str_to_float : pystr -> option pyfloat.

(** Validation of a [float] field (lax mode). *)
Definition validate_float (v : json) : option pyfloat :=
  match v with
  | JFloat f => Some f
  | JInt z => Some (FDec z 0)
  | JBool b => Some (FDec (if b then 1 else 0) 0)
  | JStr s => lax_str_to_float s
  | _ => None
  end.

(** [Detection(title=..., description=..., severity=..., indicators=...)] *)
Definition new_Detection (title description severity indicators : json)
  : pyresult Detection :=
  match validate_str title, validate_str description, validate_str severity,
        validate_list_str indicators with
  | Some t, Some de, Some sv, Some ind =>
      Ok {| title := t; description := de; severity := sv; indicators := ind |}
  | _, _, _, _ => Err ValidationError
  end.

(** [LogAnalysisResponse(...)] *)
Definition new_LogAnalysisResponse (overall_risk_score summary : json)
  (detections : list Detection) (recommended_actions queries_to_run : json)
  : pyresult LogAnalysisResponse :=
  match validate_float overall_risk_score, validate_str summary,
        validate_list_str recommended_actions, validate_list_str queries_to_run with
  | Some sc, Some su, Some ra, Some qs =>
      Ok {| overall_risk_score := sc; summary := su; detections := detections;
            recommended_actions := ra; queries_to_run := qs |}
  | _, _, _, _ => Err ValidationError
  end.

(** The body of the list comprehension of lines 205-213. *)
Definition make_detection (d : json) : pyresult Detection :=
  let* t := py_get d (py "title") (JStr []) in
  let* de := py_get d (py "description") (JStr []) in
  let* sv := py_get d (py "severity") (JStr (py "Medium")) in
  let* ind := py_get d (py "indicators") (JArr []) in
  new_Detection t de sv ind.

(** Lines 205-221 of [analyze_logs], from the parsed [result]. *)
Definition build_response (result : json) : pyresult LogAnalysisResponse :=
  let* ds := py_get result (py "detections") (JArr []) in
  let* items := py_iter ds in
  let* detections := map_result make_detection items in
  let* sc := py_get result (py "overall_risk_score") (JFloat py_0_0) in
  let* su := py_get result (py "summary") (JStr []) in
  let* ra := py_get result (py "recommended_actions") (JArr []) in
  let* qs := py_get result (py "queries_to_run") (JArr []) in
  new_LogAnalysisResponse sc su detections ra qs.


(** ** Prompts *)

Definition nl : pystr := [10].
Definition dq : pystr := [34].

Definition system_prompt : pystr :=
  py "You are a senior security analyst and threat hunter assisting a SOC team. " ++
  py "Given raw security logs, your job is to:" ++ nl ++
  py "- detect suspicious or malicious activity and group it into 'detections'" ++ nl ++
  py "- assign each detection a severity: Low / Medium / High / Critical" ++ nl ++
  py "- compute an overall risk score from 0 to 100 for the entire log batch" ++ nl ++
  py "- describe the situation in a concise summary (3" ++ [8211] ++ py "5 sentences)" ++ nl ++
  py "- propose concrete recommended_actions for the security team" ++ nl ++
  py "- output follow-up queries_to_run in a SIEM (SPL, KQL, SQL-like)." ++ nl ++ nl ++
  py "Return ONLY valid JSON with this exact schema:" ++ nl ++
  py "{" ++ nl ++
  py "  " ++ dq ++ py "overall_risk_score" ++ dq ++ py ": float," ++ nl ++
  py "  " ++ dq ++ py "summary" ++ dq ++ py ": str," ++ nl ++
  py "  " ++ dq ++ py "detections" ++ dq ++ py ": [" ++ nl ++
  py "    {" ++ dq ++ py "title" ++ dq ++ py ": str, " ++ dq ++ py "description" ++ dq ++
  py ": str, " ++ dq ++ py "severity" ++ dq ++ py ": str, " ++ dq ++ py "indicators" ++ dq ++
  py ": [str, ...]}," ++ nl ++
  py "  ]," ++ nl ++
  py "  " ++ dq ++ py "recommended_actions" ++ dq ++ py ": [str, ...]," ++ nl ++
  py "  " ++ dq ++ py "queries_to_run" ++ dq ++ py ": [str, ...]" ++ nl ++
  py "}".

(** [x or default] for an [Optional[str]]: [None] and [""] are falsy. *)
Definition py_or (x : option pystr) (dflt : pystr) : pystr :=
  match x with
  | Some ((_ :: _) as s) => s
  | _ => dflt
  end.

(** The f-string of lines 184-193. *)
Definition user_prompt (req : LogAnalysisRequest) : pystr :=
  nl ++
  py "    ENVIRONMENT:" ++ nl ++
  py "    " ++ py_or (environment req) (py "Not specified") ++ nl ++
  nl ++
  py "    ANALYST QUESTION / FOCUS:" ++ nl ++
  py "    " ++ py_or (question req) (py "General threat hunting and incident triage.") ++ nl ++
  nl ++
  py "    LOGS:" ++ nl ++
  py "    " ++ logs req ++ nl ++
  py "    ".

(** ** The outbound call *)

(** Environment configuration, read once at import. *)
Record config := {
  AGI_API_KEY : option pystr;
  AGI_BASE_URL : pystr
}.

(** An outbound POST request. *)
Record outbound := {
  url : pystr;
  headers : list (pystr * pystr);
  payload : json
}.

(** What the network gives back for one POST: a response (status code and
    body text) or a transport failure (connection error, timeout). *)
Inductive reply :=
| Response (status_code : Z) (text : pystr)
| TransportFailure.

(** A computation that may send POST requests: the requests sent, in order,
    and the outcome. *)
Definition io (A : Type) : Type := list outbound * pyresult A.

Definition AGI_API_KEY_missing : pystr :=
  py "AGI_API_KEY is not configured on the server. Set it in backend/.env".

(** [data["choices"][0]["message"]["content"]] *)
Definition extract_content (data : json) : pyresult json :=
  let* choices := py_subscript_key data (py "choices") in
  let* first := py_subscript_0 choices in
  let* message := py_subscript_key first (py "message") in
  py_subscript_key message (py "content").

Definition agi_payload (system_prompt user_prompt : pystr) : json :=
  JObj [(py "model", JStr (py "agi-latest"));
        (py "messages",
          JArr [JObj [(py "role", JStr (py "system")); (py "content", JStr system_prompt)];
                JObj [(py "role", JStr (py "user")); (py "content", JStr user_prompt)]]);
        (py "temperature", JFloat (FDec 2 (-1)))].

Definition agi_request (cfg : config) (key system_prompt user_prompt : pystr) : outbound :=
  {| url := AGI_BASE_URL cfg ++ py "/v1/chat/completions";
     headers := [(py "Authorization", py "Bearer " ++ key);
                 (py "Content-Type", py "application/json")];
     payload := agi_payload system_prompt user_prompt |}.

(** [call_agi_agent]; [net] answers each POST. *)
Definition call_agi_agent (cfg : config) (net : outbound -> reply)
  (system_prompt user_prompt : pystr) : io json :=
  match AGI_API_KEY cfg with
  | None | Some [] => ([], Err (HTTPException 500 AGI_API_KEY_missing))
  | Some key =>
      let req := agi_request cfg key system_prompt user_prompt in
      ([req],
        match net req with
        | TransportFailure => Err TransportError
        | Response st body =>
            if (200 <=? st) && (st <? 300) then
              let* data := loads body in
              extract_content data
            else Err (HTTPException st (py "AGI API error: " ++ body))
        end)
  end.

(** ** The endpoint *)

Definition analyze_logs (cfg : config) (net : outbound -> reply) (req : LogAnalysisRequest)
  : io LogAnalysisResponse :=
  let '(sent, r) := call_agi_agent cfg net system_prompt (user_prompt req) in
  (sent,
    let* raw := r in
    match raw with
    | JStr raw_response =>
        let* result := parse_agent_output raw_response in
        build_response result
    | _ => Err TypeError
    end).

End Pydantic.

(** ** Notions used in the statements *)

(** The field [k] of a [dict] value. *)
Definition json_field (j : json) (k : pystr) : option json :=
  match j with JObj kv => dict_get k kv | _ => None end.

(** A [Detection] whose fields are exactly the fields of a JSON object. *)
Definition detection_matches (j : json) (d : Detection) : Prop :=
  match j with
  | JObj kv =>
      dict_get (py "title") kv = Some (JStr (title d)) /\
      dict_get (py "description") kv = Some (JStr (description d)) /\
      dict_get (py "severity") kv = Some (JStr (severity d)) /\
      dict_get (py "indicators") kv = Some (JArr (map JStr (indicators d)))
  | _ => False
  end.

(** The defaults the spec lists for the top-level fields of the reply. *)
Definition spec_response_defaults : list (pystr * json) :=
  [(py "overall_risk_score", JFloat py_0_0); (py "summary", JStr []);
   (py "detections", JArr []); (py "recommended_actions", JArr []);
   (py "queries_to_run", JArr [])].

(** The response built from a reply with none of the top-level fields. *)
Definition empty_response : LogAnalysisResponse :=
  {| overall_risk_score := py_0_0; summary := []; detections := [];
     recommended_actions := []; queries_to_run := [] |}.

(** A JSON document wrapped in a code fence: [n] backticks, the tag [json],
    the document, [m] backticks. *)
Definition code_fence (n m : nat) (doc : pystr) : pystr :=
  repeat 96 n ++ py "json" ++ doc ++ repeat 96 m.

(** Predicates on scanned text used by the scanner lemmas. *)
Definition all_ws (w : pystr) : Prop := Forall (fun c => is_json_ws c = true) w.

Definition ws_free_head (y : pystr) : Prop :=
  match y with c :: _ => is_json_ws c = false | [] => True end.

Definition all_digits (w : pystr) : Prop := Forall (fun c => is_digit c = true) w.

Definition digit_free_head (y : pystr) : Prop :=
  match y with c :: _ => is_digit c = false | [] => True end.

(** What may follow a value inside a document: nothing, whitespace, a
    comma or a closing bracket. *)
Definition stop (r : pystr) : bool :=
  match r with
  | [] => true
  | c :: _ => is_json_ws c || (c =? 44) || (c =? 93) || (c =? 125)
  end.

(** A character that [str.strip()], [str.strip("`")] and the BOM check all
    leave alone. *)
Definition edge_ok (c : Z) : bool :=
  negb (py_isspace c) && negb (is_backtick c) && negb (c =? 65279).

Definition edges_ok (p : pystr) : Prop :=
  p <> [] /\ edge_ok (hd 0 p) = true /\ edge_ok (last p 0) = true.

(** The characters a scanned text may not start with. *)
Definition head_not (cs : list Z) (y : pystr) : Prop :=
  match y with c :: _ => ~ In c cs | [] => True end.
(** A value read by [parse_value], an object's members read by
    [parse_members] (up to the closing brace) and an array's elements read by
    [parse_elements] (up to the closing bracket) occupy a prefix of the input;
    the same prefix followed by anything that ends a value is read the same
    way with any larger fuel. *)
Definition value_prefix (f : nat) : Prop :=
  forall x v rem, parse_value f x = Some (v, rem) ->
  exists p, x = p ++ rem /\ edges_ok p /\
    forall f' r', (length p < f')%nat -> stop r' = true ->
      parse_value f' (p ++ r') = Some (v, r').
Definition members_prefix (f : nat) : Prop :=
  forall acc x v rem, parse_members f acc x = Some (v, rem) ->
  exists q, x = q ++ 125 :: rem /\
    forall f' r', (length q < f')%nat -> parse_members f' acc (q ++ 125 :: r') = Some (v, r').
Definition elements_prefix (f : nat) : Prop :=
  forall acc x v rem, parse_elements f acc x = Some (v, rem) ->
  exists q, x = q ++ 93 :: rem /\
    forall f' r', (S (length q) < f')%nat ->
      parse_elements f' acc (q ++ 93 :: r') = Some (v, r').
(** [x] occurs in [s] as a contiguous part. *)
Definition infix (x s : pystr) : Prop := exists a b, s = a ++ x ++ b.

(** [x] is the field [k] of [j] when [j] has that key, and [dflt] otherwise
    ([dict.get(k, dflt)]). *)
Definition field_or_default (j : json) (k : pystr) (dflt x : json) : Prop :=
  json_field j k = Some x \/ (json_field j k = None /\ x = dflt).

(** A status code accepted by httpx's [raise_for_status] (a success code). *)
Definition is_2xx (st : Z) : Prop := 200 <= st < 300.

(** A character removed by [str.strip()] or by [str.strip("`")]. *)
Definition blank (c : Z) : bool := py_isspace c || is_backtick c.

(** ** Concrete inputs *)

Definition cfg_test : config :=
  {| AGI_API_KEY := Some (py "sk-test"); AGI_BASE_URL := py "https://api.agi.tech" |}.

(** The request of the spec's end-to-end scenario. *)
Definition req_scenario : LogAnalysisRequest :=
  {| logs := py "2024-01-01 failed login x5 from 10.0.0.5";
     environment := Some (py "AWS"); question := Some (py "brute force?") |}.

(** The reply text of the scenario: a JSON object with every schema field. *)
Definition payload_scenario : pystr :=
  pyq "{'overall_risk_score': 72.5, 'summary': 'Repeated failed logins from one host.', 'detections': [{'title': 'Brute force', 'description': 'Five failed logins from 10.0.0.5', 'severity': 'High', 'indicators': ['10.0.0.5']}], 'recommended_actions': ['Block 10.0.0.5'], 'queries_to_run': ['index=auth action=failure src=10.0.0.5']}".

(** A stubbed external service answering every request with that text as
    the first choice's message content. *)
Definition net_scenario (o : outbound) : reply :=
  Response 200 (pyq "{'choices': [{'message': {'role': 'assistant', 'content': '{\'overall_risk_score\': 72.5, \'summary\': \'Repeated failed logins from one host.\', \'detections\': [{\'title\': \'Brute force\', \'description\': \'Five failed logins from 10.0.0.5\', \'severity\': \'High\', \'indicators\': [\'10.0.0.5\']}], \'recommended_actions\': [\'Block 10.0.0.5\'], \'queries_to_run\': [\'index=auth action=failure src=10.0.0.5\']}'}}]}").

Definition detection_scenario : Detection :=
  {| title := py "Brute force"; description := py "Five failed logins from 10.0.0.5";
     severity := py "High"; indicators := [py "10.0.0.5"] |}.

(** A JSON document between newlines, with the word [json] inside it too. *)
Definition doc_fenced : pystr :=
  [10] ++ pyq "{'score': [1, -2.5e3, true], 'tag': 'json'}" ++ [10].

Definition value_fenced : json :=
  JObj [(py "score", JArr [JInt 1; JFloat (FDec (-25) 2); JBool true]);
        (py "tag", JStr (py "json"))].

(** A service whose answer is prose, not JSON. *)
Definition net_prose (o : outbound) : reply :=
  Response 200 (pyq "{'choices': [{'message': {'content': 'Sorry, I cannot analyze these logs.'}}]}").

(** A service refusing the request. *)
Definition net_401 (o : outbound) : reply :=
  Response 401 (py "invalid api key").

(** A parsed reply with a score outside 0..100, no summary and no lists
    but one detection that has only indicators. *)
Definition reply_sparse : list (pystr * json) :=
  [(py "overall_risk_score", JFloat (FDec 1505 (-1)));
   (py "detections", JArr [JObj [(py "indicators", JArr [JStr (py "10.0.0.5")])]])].

Definition response_sparse : LogAnalysisResponse :=
  {| overall_risk_score := FDec 1505 (-1); summary := [];
     detections := [{| title := []; description := []; severity := py "Medium";
                       indicators := [py "10.0.0.5"] |}];
     recommended_actions := []; queries_to_run := [] |}.

(** A configuration whose key is the empty string. *)
Definition cfg_empty_key : config :=
  {| AGI_API_KEY := Some []; AGI_BASE_URL := py "https://api.agi.tech" |}.

(** A service that cannot be reached. *)
Definition net_down (o : outbound) : reply := TransportFailure.


(** Success replies of the wrong shape. *)
Definition net_no_choices (o : outbound) : reply :=
  Response 200 (pyq "{'error': 'overloaded'}").

Definition net_empty_choices (o : outbound) : reply :=
  Response 200 (pyq "{'choices': []}").

Definition net_numeric_content (o : outbound) : reply :=
  Response 200 (pyq "{'choices': [{'message': {'content': 42}}]}").

Definition data_numeric_content : json :=
  JObj [(py "choices", JArr [JObj [(py "message", JObj [(py "content", JInt 42)])]])].

Definition net_array_content (o : outbound) : reply :=
  Response 200 (pyq "{'choices': [{'message': {'content': '[1]'}}]}").

Definition data_array_content : json :=
  JObj [(py "choices", JArr [JObj [(py "message", JObj [(py "content", JStr (py "[1]"))])]])].

(** ** Lemmas on dictionaries and on the response builder *)

Lemma dict_get_set_same : forall k v d, dict_get k (dict_set k v d) = Some v.
Proof.
  induction d as [|[k' v'] d IH]; simpl.
  - destruct (list_eq_dec Z.eq_dec k k); congruence.
  - destruct (list_eq_dec Z.eq_dec k k') as [<-|Hne]; simpl.
    + destruct (list_eq_dec Z.eq_dec k k); congruence.
    + destruct (list_eq_dec Z.eq_dec k k'); [contradiction | exact IH].
Qed.

Lemma dict_get_set_other : forall k k' v d,
  k <> k' -> dict_get k' (dict_set k v d) = dict_get k' d.
Proof.
  intros k k' v d Hne; induction d as [|[k0 v0] d IH]; simpl.
  - destruct (list_eq_dec Z.eq_dec k' k); congruence.
  - destruct (list_eq_dec Z.eq_dec k k0) as [<-|Hne0]; simpl.
    + destruct (list_eq_dec Z.eq_dec k' k); congruence.
    + destruct (list_eq_dec Z.eq_dec k' k0); [reflexivity | exact IH].
Qed.

Lemma dict_get_or_set_other : forall k k' v dflt d,
  k <> k' -> dict_get_or k' dflt (dict_set k v d) = dict_get_or k' dflt d.
Proof. intros; unfold dict_get_or; rewrite dict_get_set_other; auto. Qed.

Lemma dict_get_or_set_absent : forall k v d,
  dict_get k d = None -> dict_get_or k v (dict_set k v d) = dict_get_or k v d.
Proof. intros k v d H; unfold dict_get_or; rewrite dict_get_set_same, H; reflexivity. Qed.

Lemma map_result_Forall2 : forall {A B} (f : A -> pyresult B) (P : A -> B -> Prop) l l',
  (forall x y, f x = Ok y -> P x y) -> map_result f l = Ok l' -> Forall2 P l l'.
Proof.
  intros A B f P l; induction l as [|x l IH]; intros l' Hf Hm; simpl in Hm.
  - inversion Hm; constructor.
  - destruct (f x) as [y|e] eqn:Ex; simpl in Hm; [|discriminate].
    destruct (map_result f l) as [ys|e] eqn:El; simpl in Hm; [|discriminate].
    inversion Hm; subst; constructor; auto.
Qed.

Lemma Forall2_map_result : forall {A B} (f : A -> pyresult B) (P : A -> B -> Prop) l l',
  (forall x y, P x y -> f x = Ok y) -> Forall2 P l l' -> map_result f l = Ok l'.
Proof.
  intros A B f P l l' Hf H; induction H; simpl; [reflexivity|].
  rewrite (Hf _ _ H), IHForall2; reflexivity.
Qed.

Lemma validate_str_items_map : forall l, validate_str_items (map JStr l) = Some l.
Proof. induction l; simpl; [reflexivity | rewrite IHl; reflexivity]. Qed.

Section Builder.

Variable lax_str_to_float : pystr -> option pyfloat.

(** [build_response] reads the reply only through [dict.get] of its five
    top-level fields with their defaults. *)
Lemma build_response_ext : forall o1 o2,
  (forall k v, In (k, v) spec_response_defaults -> dict_get_or k v o1 = dict_get_or k v o2) ->
  build_response lax_str_to_float (JObj o1) = build_response lax_str_to_float (JObj o2).
Proof.
  intros o1 o2 H; unfold build_response, py_get.
  rewrite !H by (simpl; tauto); reflexivity.
Qed.

Lemma build_response_inv : forall o r,
  build_response lax_str_to_float (JObj o) = Ok r ->
  exists items,
    py_iter (dict_get_or (py "detections") (JArr []) o) = Ok items /\
    map_result make_detection items = Ok (detections r) /\
    validate_float lax_str_to_float (dict_get_or (py "overall_risk_score") (JFloat py_0_0) o)
      = Some (overall_risk_score r) /\
    validate_str (dict_get_or (py "summary") (JStr []) o) = Some (summary r) /\
    validate_list_str (dict_get_or (py "recommended_actions") (JArr []) o)
      = Some (recommended_actions r) /\
    validate_list_str (dict_get_or (py "queries_to_run") (JArr []) o) = Some (queries_to_run r).
Proof.
  intros o r H; unfold build_response, py_get, bind in H.
  destruct (py_iter _) as [items|e] eqn:E0; [|discriminate].
  destruct (map_result make_detection items) as [dets|e] eqn:E5; [|discriminate].
  unfold new_LogAnalysisResponse in H.
  destruct (validate_float _ _) eqn:E1; [|discriminate].
  destruct (validate_str _) eqn:E2; [|discriminate].
  destruct (validate_list_str (dict_get_or (py "recommended_actions") _ _)) eqn:E3; [|discriminate].
  destruct (validate_list_str (dict_get_or (py "queries_to_run") _ _)) eqn:E4; [|discriminate].
  inversion H; subst; simpl; eexists; repeat split; eauto.
Qed.

End Builder.

Ltac keys_differ := let H := fresh in intro H; vm_compute in H; discriminate H.

Lemma make_detection_obj : forall j d, make_detection j = Ok d -> exists kv, j = JObj kv.
Proof. intros [] d H; try discriminate; eauto. Qed.

Lemma make_detection_inv : forall kv d,
  make_detection (JObj kv) = Ok d ->
  validate_str (dict_get_or (py "title") (JStr []) kv) = Some (title d) /\
  validate_str (dict_get_or (py "description") (JStr []) kv) = Some (description d) /\
  validate_str (dict_get_or (py "severity") (JStr (py "Medium")) kv) = Some (severity d) /\
  validate_list_str (dict_get_or (py "indicators") (JArr []) kv) = Some (indicators d).
Proof.
  intros kv d H; unfold make_detection, py_get, bind, new_Detection in H.
  destruct (validate_str (dict_get_or (py "title") _ _)); [|discriminate].
  destruct (validate_str (dict_get_or (py "description") _ _)); [|discriminate].
  destruct (validate_str (dict_get_or (py "severity") _ _)); [|discriminate].
  destruct (validate_list_str _); [|discriminate].
  inversion H; subst; simpl; repeat split.
Qed.

Lemma make_detection_matches : forall j d, detection_matches j d -> make_detection j = Ok d.
Proof.
  intros [] [t de sv ind] H; simpl in H; try contradiction.
  destruct H as (H1 & H2 & H3 & H4).
  unfold make_detection, py_get, bind, new_Detection, dict_get_or.
  rewrite H1, H2, H3, H4; simpl; rewrite validate_str_items_map; reflexivity.
Qed.

(** Setting a field that the builder does not read, or setting an absent
    field to its default, leaves [make_detection] unchanged. *)
Lemma make_detection_set_absent : forall k v kv,
  In (k, v) [(py "title", JStr []); (py "description", JStr []);
             (py "severity", JStr (py "Medium")); (py "indicators", JArr [])] ->
  dict_get k kv = None ->
  make_detection (JObj kv) = make_detection (JObj (dict_set k v kv)).
Proof.
  intros k v kv Hin Habs; unfold make_detection, py_get.
  simpl in Hin; destruct Hin as [E|[E|[E|[E|[]]]]]; inversion E; subst;
    rewrite ?dict_get_or_set_absent by exact Habs;
    rewrite ?dict_get_or_set_other by keys_differ; reflexivity.
Qed.

(** ** Lemmas on the JSON scanner *)

Lemma last_cons_ne : forall (a : Z) l, l <> [] -> last (a :: l) 0 = last l 0.
Proof. intros a [|b l] H; [contradiction | reflexivity]. Qed.

Lemma skip_ws_split : forall x,
  exists w, x = w ++ skip_ws x /\ all_ws w /\ ws_free_head (skip_ws x).
Proof.
  induction x as [|c x IH]; simpl.
  - exists []; repeat split; constructor.
  - destruct (is_json_ws c) eqn:E.
    + destruct IH as (w & Hx & Hw & Hh); exists (c :: w); simpl; rewrite <- Hx.
      repeat split; auto; constructor; auto.
    + exists []; repeat split; [constructor | exact E].
Qed.

Lemma skip_ws_app : forall w y, all_ws w -> ws_free_head y -> skip_ws (w ++ y) = y.
Proof.
  intros w y Hw Hy; induction Hw as [|c w Hc Hw IH]; simpl.
  - destruct y as [|c y]; simpl in *; [reflexivity | rewrite Hy; reflexivity].
  - rewrite Hc; exact IH.
Qed.

Lemma ws_free_head_cons_app : forall q (a : Z) y y',
  ws_free_head (q ++ a :: y) -> ws_free_head (q ++ a :: y').
Proof. intros [|c q] a y y' H; exact H. Qed.

Lemma stop_ws_delim : forall w d y,
  all_ws w -> (d = 44 \/ d = 93 \/ d = 125) -> stop (w ++ d :: y) = true.
Proof.
  intros w d y Hw Hd; destruct Hw as [|c w Hc _]; simpl.
  - destruct Hd as [-> | [-> | ->]]; reflexivity.
  - rewrite Hc; reflexivity.
Qed.

Lemma json_ws_py_space : forall c, is_json_ws c = true -> py_isspace c = true.
Proof.
  intros c H; unfold is_json_ws in H.
  repeat (apply orb_true_iff in H as [H|H]); apply Z.eqb_eq in H; subst; reflexivity.
Qed.

Lemma edge_ok_not_ws : forall c, edge_ok c = true -> is_json_ws c = false.
Proof.
  intros c H; destruct (is_json_ws c) eqn:E; [|reflexivity].
  apply json_ws_py_space in E; unfold edge_ok in H; rewrite E in H; discriminate.
Qed.

Lemma edges_ok_ws_free : forall p y, edges_ok p -> ws_free_head (p ++ y).
Proof.
  intros [|c p] y (Hne & Hh & _); [contradiction|]; simpl in *.
  apply edge_ok_not_ws; exact Hh.
Qed.

Lemma digit_edge_ok : forall c, is_digit c = true -> edge_ok c = true.
Proof.
  intros c H; unfold is_digit in H; apply andb_true_iff in H as [H1 H2];
    apply Z.leb_le in H1; apply Z.leb_le in H2.
  assert (c = 48 \/ c = 49 \/ c = 50 \/ c = 51 \/ c = 52 \/ c = 53 \/ c = 54 \/ c = 55
          \/ c = 56 \/ c = 57) as Hc by lia.
  repeat (destruct Hc as [Hc | Hc]; [subst; reflexivity |]); subst; reflexivity.
Qed.

(** [scan_chunks] reads up to the closing quote and no further. *)
Lemma scan_chunks_prefix : forall n x ts rem,
  (length x <= n)%nat -> scan_chunks x = Some (ts, rem) ->
  exists p, x = p ++ rem /\ p <> [] /\ last p 0 = 34 /\
    forall r', scan_chunks (p ++ r') = Some (ts, r').
Proof.
  induction n as [|n IH]; intros x ts rem Hlen H.
  { destruct x; [discriminate | simpl in Hlen; lia]. }
  destruct x as [|c r]; [discriminate|]; simpl in Hlen, H.
  destruct (c =? 34) eqn:E1.
  { inversion H; subst; apply Z.eqb_eq in E1; subst.
    exists [34]; split; [reflexivity|]; split; [discriminate|]; split; [reflexivity|].
    intros r'; reflexivity. }
  destruct (c =? 92) eqn:E2.
  - destruct r as [|e r1]; [discriminate|]; simpl in Hlen.
    destruct (e =? 117) eqn:E3.
    + destruct r1 as [|a [|b [|c2 [|d r2]]]]; try discriminate; simpl in Hlen.
      destruct (hex4 a b c2 d) as [u|] eqn:E4; [|discriminate].
      destruct (scan_chunks r2) as [[ts' rem']|] eqn:E5; simpl in H; [|discriminate].
      inversion H; subst.
      destruct (IH r2 ts' rem ltac:(lia) E5) as (p & Hx & Hne & Hl & Ht).
      exists (c :: e :: a :: b :: c2 :: d :: p); subst; split; [reflexivity|]; split; [|split].
      * discriminate.
      * rewrite !last_cons_ne by (try exact Hne; discriminate); exact Hl.
      * intros r'; simpl; rewrite E1, E2, E3, E4, Ht; reflexivity.
    + destruct (simple_escape e) as [y|] eqn:E4; [|discriminate].
      destruct (scan_chunks r1) as [[ts' rem']|] eqn:E5; simpl in H; [|discriminate].
      inversion H; subst.
      destruct (IH r1 ts' rem ltac:(lia) E5) as (p & Hx & Hne & Hl & Ht).
      exists (c :: e :: p); subst; split; [reflexivity|]; split; [|split].
      * discriminate.
      * rewrite !last_cons_ne by (try exact Hne; discriminate); exact Hl.
      * intros r'; simpl; rewrite E1, E2, E3, E4, Ht; reflexivity.
  - destruct (c <? 32) eqn:E3; [discriminate|].
    destruct (scan_chunks r) as [[ts' rem']|] eqn:E5; simpl in H; [|discriminate].
    inversion H; subst.
    destruct (IH r ts' rem ltac:(lia) E5) as (p & Hx & Hne & Hl & Ht).
    exists (c :: p); subst; split; [reflexivity|]; split; [|split].
    * discriminate.
    * rewrite last_cons_ne by exact Hne; exact Hl.
    * intros r'; simpl; rewrite E1, E2, E3, Ht; reflexivity.
Qed.

Lemma scanstring_prefix : forall x str rem,
  scanstring x = Some (str, rem) ->
  exists p, x = p ++ rem /\ p <> [] /\ last p 0 = 34 /\
    forall r', scanstring (p ++ r') = Some (str, r').
Proof.
  intros x str rem H; unfold scanstring in H.
  destruct (scan_chunks x) as [[ts rem']|] eqn:E; [|discriminate]; inversion H; subst.
  destruct (scan_chunks_prefix (length x) x ts rem (le_n _) E) as (p & Hx & Hne & Hl & Ht).
  exists p; repeat split; auto.
  intros r'; unfold scanstring; rewrite Ht; reflexivity.
Qed.

Lemma last_app_ne : forall (l l' : list Z) d, l' <> [] -> last (l ++ l') d = last l' d.
Proof.
  induction l as [|a l IH]; intros l' d H; [reflexivity|].
  simpl; rewrite IH by exact H.
  destruct l; simpl; [destruct l'; [contradiction|reflexivity]|].
  destruct (l ++ l') eqn:E; [destruct l'; [contradiction|]; apply app_eq_nil in E as [_ E]; discriminate|reflexivity].
Qed.

Lemma all_digits_last : forall l, all_digits l -> l <> [] -> is_digit (last l 0) = true.
Proof.
  induction l as [|a l IH]; intros H Hne; [contradiction|].
  inversion H; subst; destruct l as [|b l]; [assumption|].
  rewrite last_cons_ne by discriminate; apply IH; [assumption|discriminate].
Qed.

Lemma span_digits_spec : forall x ds y,
  span_digits x = (ds, y) -> x = ds ++ y /\ all_digits ds /\ digit_free_head y.
Proof.
  induction x as [|c x IH]; intros ds y H; simpl in H.
  - inversion H; subst; repeat split; constructor.
  - destruct (is_digit c) eqn:E.
    + destruct (span_digits x) as [ds' y'] eqn:E'; inversion H; subst.
      destruct (IH ds' y eq_refl) as (-> & Hd & Hy).
      repeat split; [constructor|]; assumption.
    + inversion H; subst; repeat split; [constructor | exact E].
Qed.

Lemma span_digits_app : forall ds y,
  all_digits ds -> digit_free_head y -> span_digits (ds ++ y) = (ds, y).
Proof.
  intros ds y Hd Hy; induction Hd as [|c ds Hc Hd IH]; simpl.
  - destruct y as [|c y]; [reflexivity|]; simpl in Hy; cbn [span_digits]; rewrite Hy; reflexivity.
  - cbn [span_digits app] in *; rewrite Hc, IH; reflexivity.
Qed.

Lemma int_part_spec : forall x ids y,
  int_part x = Some (ids, y) ->
  x = ids ++ y /\ all_digits ids /\ ids <> [] /\
  forall Y, digit_free_head Y -> int_part (ids ++ Y) = Some (ids, Y).
Proof.
  intros [|c r] ids y H; [discriminate|]; unfold int_part in H.
  destruct (c =? 48) eqn:E1.
  - inversion H; subst; apply Z.eqb_eq in E1; subst.
    split; [reflexivity|]; split; [constructor; [reflexivity|constructor]|].
    split; [discriminate|]; intros Y _; reflexivity.
  - destruct ((49 <=? c) && (c <=? 57)) eqn:E2; [|discriminate].
    destruct (span_digits r) as [ds r'] eqn:E3; inversion H; subst.
    destruct (span_digits_spec r ds y E3) as (-> & Hd & Hy).
    split; [reflexivity|]; split; [|split; [discriminate|]].
    + constructor; [|exact Hd].
      apply andb_true_iff in E2 as [E2 E2']; apply andb_true_iff; split;
        apply Z.leb_le; [apply Z.leb_le in E2 | apply Z.leb_le in E2']; lia.
    + intros Y HY; simpl; rewrite E1, E2, span_digits_app by assumption; reflexivity.
Qed.


Lemma frac_part_none : forall Y, head_not [46] Y -> frac_part Y = (None, Y).
Proof.
  intros [|c [|d r]] H; simpl in *; try reflexivity.
  destruct (c =? 46) eqn:E; [apply Z.eqb_eq in E; subst; tauto | reflexivity].
Qed.

Lemma exp_part_none : forall Y, head_not [101; 69] Y -> exp_part Y = (None, Y).
Proof.
  intros [|c r] H; simpl in *; try reflexivity.
  destruct (c =? 101) eqn:E; [apply Z.eqb_eq in E; subst; tauto |].
  destruct (c =? 69) eqn:E'; [apply Z.eqb_eq in E'; subst; tauto | reflexivity].
Qed.

Lemma frac_part_spec : forall x fr y,
  frac_part x = (fr, y) ->
  (fr = None /\ y = x) \/
  (exists d ds, fr = Some (d :: ds) /\ x = 46 :: d :: ds ++ y /\ all_digits (d :: ds) /\
     forall Y, digit_free_head Y -> frac_part (46 :: d :: ds ++ Y) = (fr, Y)).
Proof.
  intros [|c [|d r]] fr y H; simpl in H; try (inversion H; left; split; reflexivity).
  destruct ((c =? 46) && is_digit d) eqn:E; [|inversion H; left; split; reflexivity].
  destruct (span_digits r) as [ds r'] eqn:E2; inversion H; subst.
  destruct (span_digits_spec r ds y E2) as (-> & Hd & Hy).
  apply andb_true_iff in E as [E E']; apply Z.eqb_eq in E; subst.
  right; exists d, ds; repeat split; [constructor; assumption|].
  intros Y HY; simpl; rewrite E', span_digits_app by assumption; reflexivity.
Qed.

Lemma exp_part_spec : forall x ex y,
  exp_part x = (ex, y) ->
  (ex = None /\ y = x) \/
  (exists q, x = q ++ y /\ q <> [] /\ is_digit (last q 0) = true /\
     (hd 0 q = 101 \/ hd 0 q = 69) /\
     forall Y, digit_free_head Y -> exp_part (q ++ Y) = (ex, Y)).
Proof.
  intros [|c r] ex y H; simpl in H; [inversion H; left; split; reflexivity|].
  destruct ((c =? 101) || (c =? 69)) eqn:Ec; [|inversion H; left; split; reflexivity].
  assert (Hhd : c = 101 \/ c = 69)
    by (apply orb_true_iff in Ec as [E|E]; apply Z.eqb_eq in E; auto).
  destruct r as [|x r'].
  { inversion H; left; split; reflexivity. }
  destruct (x =? 45) eqn:E45; [| destruct (x =? 43) eqn:E43].
  - destruct (span_digits r') as [ds r2] eqn:E2.
    destruct ds as [|d ds]; inversion H; subst; [left; split; reflexivity|].
    destruct (span_digits_spec r' (d :: ds) y E2) as (-> & Hd & Hy).
    apply Z.eqb_eq in E45; subst.
    right; exists (c :: 45 :: d :: ds); repeat split; [discriminate| |exact Hhd|].
    + rewrite !last_cons_ne by discriminate; apply all_digits_last; [exact Hd|discriminate].
    + intros Y HY; unfold exp_part; cbn [app]; rewrite Ec; cbn -[span_digits digits_value].
      change (d :: ds ++ Y) with ((d :: ds) ++ Y); rewrite span_digits_app by assumption;
      reflexivity.
  - destruct (span_digits r') as [ds r2] eqn:E2.
    destruct ds as [|d ds]; inversion H; subst; [left; split; reflexivity|].
    destruct (span_digits_spec r' (d :: ds) y E2) as (-> & Hd & Hy).
    apply Z.eqb_eq in E43; subst.
    right; exists (c :: 43 :: d :: ds); repeat split; [discriminate| |exact Hhd|].
    + rewrite !last_cons_ne by discriminate; apply all_digits_last; [exact Hd|discriminate].
    + intros Y HY; unfold exp_part; cbn [app]; rewrite Ec; cbn -[span_digits digits_value].
      change (d :: ds ++ Y) with ((d :: ds) ++ Y); rewrite span_digits_app by assumption;
      reflexivity.
  - destruct (span_digits (x :: r')) as [ds r2] eqn:E2.
    destruct ds as [|d ds]; inversion H; subst; [left; split; reflexivity|].
    destruct (span_digits_spec (x :: r') (d :: ds) y E2) as (Hx & Hd & Hy).
    simpl in Hx; injection Hx as -> ->.
    right; exists (c :: d :: ds); repeat split; [discriminate| |exact Hhd|].
    + rewrite last_cons_ne by discriminate; apply all_digits_last; [exact Hd|discriminate].
    + intros Y HY; unfold exp_part; cbn [app]; rewrite Ec, E45, E43; cbn -[span_digits digits_value].
      change (d :: ds ++ Y) with ((d :: ds) ++ Y); rewrite span_digits_app by assumption; reflexivity.
Qed.

Ltac norm_app := repeat progress (rewrite <- ?app_assoc; cbn [app]).

Lemma stop_heads : forall Y, stop Y = true ->
  digit_free_head Y /\ head_not [46] Y /\ head_not [101; 69] Y.
Proof.
  intros [|c Y] H; [repeat split|]; simpl in H.
  repeat (apply orb_true_iff in H as [H|H]); apply Z.eqb_eq in H; subst;
    simpl; repeat split; try reflexivity; lia.
Qed.

Lemma all_digits_hd : forall l, all_digits l -> l <> [] -> is_digit (hd 0 l) = true.
Proof. intros [|a l] H Hne; [contradiction|]; inversion H; assumption. Qed.

Lemma hd_app_ne : forall (l l' : list Z), l <> [] -> hd 0 (l ++ l') = hd 0 l.
Proof. intros [|a l] l' H; [contradiction|reflexivity]. Qed.

Lemma parse_unsigned_prefix : forall neg s1 v rem,
  parse_unsigned neg s1 = Some (v, rem) ->
  exists b, s1 = b ++ rem /\ b <> [] /\ is_digit (hd 0 b) = true /\
    is_digit (last b 0) = true /\
    forall r', stop r' = true -> parse_unsigned neg (b ++ r') = Some (v, r').
Proof.
  intros neg s1 v rem H; unfold parse_unsigned in H.
  destruct (int_part s1) as [[ids s2]|] eqn:Ei; [|discriminate].
  destruct (frac_part s2) as [fr s3] eqn:Ef.
  destruct (exp_part s3) as [ex s4] eqn:Ee; injection H as <- <-.
  destruct (int_part_spec s1 ids s2 Ei) as (-> & Hd & Hne & Hit).
  assert (Hh : forall l', is_digit (hd 0 (ids ++ l')) = true)
    by (intros l'; rewrite hd_app_ne by exact Hne; apply all_digits_hd; assumption).
  destruct (frac_part_spec _ _ _ Ef) as [[-> ->] | (d & ds & -> & -> & Hfd & Hft)];
  destruct (exp_part_spec _ _ _ Ee) as [[-> ->] | (q & -> & Hqne & Hql & Hqh & Hqt)].
  - exists ids; split; [reflexivity|]; split; [exact Hne|]; split.
    { rewrite <- (app_nil_r ids); apply Hh. }
    split; [apply all_digits_last; assumption|].
    intros r' Hr; destruct (stop_heads r' Hr) as (H1 & H2 & H3).
    unfold parse_unsigned; rewrite Hit, frac_part_none, exp_part_none by assumption;
      reflexivity.
  - exists (ids ++ q); split; [rewrite app_assoc; reflexivity|]; split.
    { destruct ids; [contradiction|discriminate]. }
    split; [apply Hh|]; split; [rewrite last_app_ne by exact Hqne; exact Hql|].
    intros r' Hr; destruct (stop_heads r' Hr) as (H1 & H2 & H3).
    destruct q as [|c q]; [contradiction|]; simpl in Hqh.
    unfold parse_unsigned; rewrite <- app_assoc, Hit, frac_part_none, Hqt
      by (simpl; try destruct Hqh as [-> | ->]; first [assumption | reflexivity | lia]).
    reflexivity.
  - exists (ids ++ 46 :: d :: ds); split; [norm_app; reflexivity|]; split.
    { destruct ids; [contradiction|discriminate]. }
    split; [apply Hh|]; split.
    { rewrite last_app_ne, last_cons_ne by discriminate; apply all_digits_last; [exact Hfd|discriminate]. }
    intros r' Hr; destruct (stop_heads r' Hr) as (H1 & H2 & H3).
    unfold parse_unsigned; norm_app; rewrite Hit by reflexivity.
    rewrite Hft, exp_part_none by assumption; reflexivity.
  - exists (ids ++ 46 :: d :: ds ++ q); split; [norm_app; reflexivity|]; split.
    { destruct ids; [contradiction|discriminate]. }
    split; [apply Hh|]; split.
    { rewrite last_app_ne by discriminate; rewrite !last_cons_ne, last_app_ne by
        (try exact Hqne; try discriminate; destruct ds, q; simpl; congruence).
      exact Hql. }
    intros r' Hr; destruct (stop_heads r' Hr) as (H1 & H2 & H3).
    destruct q as [|c q]; [contradiction|]; simpl in Hqh.
    unfold parse_unsigned; norm_app; rewrite Hit by reflexivity.
    rewrite Hft by (simpl; destruct Hqh as [-> | ->]; reflexivity).
    change (c :: q ++ r') with ((c :: q) ++ r'); rewrite Hqt by assumption; reflexivity.
Qed.

Lemma digit_cases : forall d, is_digit d = true ->
  d = 48 \/ d = 49 \/ d = 50 \/ d = 51 \/ d = 52 \/ d = 53 \/ d = 54 \/ d = 55 \/ d = 56 \/ d = 57.
Proof.
  intros d H; unfold is_digit in H; apply andb_true_iff in H as [H1 H2];
    apply Z.leb_le in H1; apply Z.leb_le in H2; lia.
Qed.

Lemma parse_constant_digit : forall d y, is_digit d = true ->
  parse_constant (d :: y) = None /\ parse_constant (45 :: d :: y) = None.
Proof.
  intros d y H; apply digit_cases in H.
  repeat (destruct H as [H | H]; [subst; split; reflexivity |]); subst; split; reflexivity.
Qed.

Lemma parse_number_neg : forall s, parse_number (45 :: s) = parse_unsigned true s.
Proof. reflexivity. Qed.

Lemma parse_number_pos : forall c s, (c =? 45) = false ->
  parse_number (c :: s) = parse_unsigned false (c :: s).
Proof. intros c s H; unfold parse_number; rewrite H; reflexivity. Qed.

Lemma parse_number_prefix : forall x v rem, parse_number x = Some (v, rem) ->
  exists p, x = p ++ rem /\ edges_ok p /\
    forall r', stop r' = true ->
      parse_constant (p ++ r') = None /\ parse_number (p ++ r') = Some (v, r').
Proof.
  intros [|c x] v rem H; [discriminate|].
  destruct (c =? 45) eqn:Ec.
  - apply Z.eqb_eq in Ec; subst; rewrite parse_number_neg in H.
    destruct (parse_unsigned_prefix _ _ _ _ H) as (b & -> & Hne & Hh & Hl & Ht).
    exists (45 :: b); split; [reflexivity|]; split.
    { split; [discriminate|]; split; [reflexivity|].
      rewrite last_cons_ne by exact Hne; apply digit_edge_ok; exact Hl. }
    intros r' Hr; split.
    + destruct b as [|d b]; [contradiction|]; apply parse_constant_digit; exact Hh.
    + cbn [app]; rewrite parse_number_neg; apply Ht; exact Hr.
  - rewrite parse_number_pos in H by exact Ec.
    destruct (parse_unsigned_prefix _ _ _ _ H) as (b & Hx & Hne & Hh & Hl & Ht).
    destruct b as [|d b]; [contradiction|]; injection Hx as <- ->.
    exists (c :: b); split; [reflexivity|]; split.
    { split; [discriminate|]; split; apply digit_edge_ok; assumption. }
    intros r' Hr; split.
    + apply parse_constant_digit; exact Hh.
    + cbn [app]; rewrite parse_number_pos by exact Ec; apply (Ht r' Hr).
Qed.

Lemma starts_with_split : forall p x, starts_with p x = true -> x = p ++ skipn (length p) x.
Proof.
  induction p as [|a p IH]; intros [|b x] H; simpl in *; try reflexivity; try discriminate.
  apply andb_true_iff in H as [H1 H2]; apply Z.eqb_eq in H1; subst; f_equal; apply IH; exact H2.
Qed.

Lemma parse_constant_prefix : forall x v rem, parse_constant x = Some (v, rem) ->
  exists p, x = p ++ rem /\ edges_ok p /\
    (forall r', parse_constant (p ++ r') = Some (v, r')) /\
    (exists c p', p = c :: p' /\ (c =? 34) = false /\ (c =? 123) = false /\ (c =? 91) = false).
Proof.
  intros x v rem H; unfold parse_constant in H.
  repeat match type of H with
  | (if starts_with ?w x then _ else _) = _ =>
      let E := fresh "E" in destruct (starts_with w x) eqn:E;
      [ injection H as <- <-; exists w;
        split; [ apply starts_with_split in E; exact E |];
        split; [ split; [discriminate | split; reflexivity] |];
        split; [ intros r'; reflexivity | eexists; eexists; split; [reflexivity|]; split; [|split]; reflexivity ]
      | ]
  end; discriminate.
Qed.

Lemma parse_value_str : forall f r,
  parse_value (S f) (34 :: r) =
  match scanstring r with Some (str, r') => Some (JStr str, r') | None => None end.
Proof. reflexivity. Qed.

Lemma parse_value_obj : forall f r,
  parse_value (S f) (123 :: r) =
  match skip_ws r with
  | d :: r2 => if d =? 125 then Some (JObj [], r2) else parse_members f [] (skip_ws r)
  | [] => None
  end.
Proof. reflexivity. Qed.

Lemma parse_value_arr : forall f r,
  parse_value (S f) (91 :: r) =
  match skip_ws r with
  | d :: r2 => if d =? 93 then Some (JArr [], r2) else parse_elements f [] (skip_ws r)
  | [] => None
  end.
Proof. reflexivity. Qed.

Lemma parse_value_other : forall f c r,
  (c =? 34) = false -> (c =? 123) = false -> (c =? 91) = false ->
  parse_value (S f) (c :: r) =
  match parse_constant (c :: r) with Some res => Some res | None => parse_number (c :: r) end.
Proof. intros f c r H1 H2 H3; cbn [parse_value]; rewrite H1, H2, H3; reflexivity. Qed.

Lemma parse_members_S : forall f acc s1,
  parse_members (S f) acc (34 :: s1) =
  match scanstring s1 with
  | None => None
  | Some (key, s2) =>
      match skip_ws s2 with
      | c :: s3 =>
          if c =? 58 then
            match parse_value f (skip_ws s3) with
            | None => None
            | Some (v, s4) =>
                let acc' := dict_set key v acc in
                match skip_ws s4 with
                | d :: s5 =>
                    if d =? 125 then Some (JObj acc', s5)
                    else if d =? 44 then parse_members f acc' (skip_ws s5)
                    else None
                | [] => None
                end
            end
          else None
      | [] => None
      end
  end.
Proof. reflexivity. Qed.

Lemma parse_elements_S : forall f acc s,
  parse_elements (S f) acc s =
  match parse_value f s with
  | None => None
  | Some (v, s1) =>
      match skip_ws s1 with
      | d :: s2 =>
          if d =? 93 then Some (JArr (rev (v :: acc)), s2)
          else if d =? 44 then parse_elements f (v :: acc) (skip_ws s2)
          else None
      | [] => None
      end
  end.
Proof. reflexivity. Qed.




Lemma closed_edges : forall (o cl : Z) l, edge_ok o = true -> edge_ok cl = true ->
  edges_ok ((o :: l) ++ [cl]).
Proof.
  intros o cl l H1 H2; split; [discriminate|]; split; [exact H1|].
  rewrite last_last; exact H2.
Qed.

Ltac len_tac := repeat (rewrite ?length_app in *; cbn [length] in * ); lia.

Ltac fuel_S f' Hf := destruct f' as [|f']; [cbn [length] in Hf; lia|].

Lemma length_ne : forall (l : list Z), l <> [] -> (1 <= length l)%nat.
Proof. intros [|a l] H; [contradiction|simpl; lia]. Qed.

Lemma parse_prefix : forall f, value_prefix f /\ members_prefix f /\ elements_prefix f.
Proof.
  induction f as [|f (IHv & IHm & IHe)].
  { split; [|split]; red; intros; simpl in *; discriminate. }
  split; [|split].
  - (* a value *)
    intros [|c r] v rem H; [discriminate|].
    destruct (c =? 34) eqn:E1; [|destruct (c =? 123) eqn:E2; [|destruct (c =? 91) eqn:E3]].
    + apply Z.eqb_eq in E1; subst; rewrite parse_value_str in H.
      destruct (scanstring r) as [[str r1]|] eqn:Es; [|discriminate]; injection H as <- <-.
      destruct (scanstring_prefix _ _ _ Es) as (ps & -> & Hne & Hl & Ht).
      exists (34 :: ps); split; [reflexivity|]; split.
      { split; [discriminate|]; split; [reflexivity|].
        rewrite last_cons_ne, Hl by exact Hne; reflexivity. }
      intros f' r' Hf _; fuel_S f' Hf; cbn [app]; rewrite parse_value_str, Ht; reflexivity.
    + apply Z.eqb_eq in E2; subst; rewrite parse_value_obj in H.
      destruct (skip_ws_split r) as (w & Hr & Hw & Hh).
      destruct (skip_ws r) as [|d r2] eqn:Ew; [discriminate|].
      destruct (d =? 125) eqn:E3.
      * injection H as <- <-; apply Z.eqb_eq in E3; subst.
        exists ((123 :: w) ++ [125]); split; [norm_app; reflexivity|].
        split; [apply closed_edges; reflexivity|].
        intros f' r' Hf _; fuel_S f' Hf.
        norm_app; rewrite parse_value_obj, skip_ws_app by (auto; reflexivity).
        reflexivity.
      * destruct (IHm _ _ _ _ H) as ([|d' q] & Hq & Ht); [injection Hq as -> _; discriminate|].
        injection Hq as <- ->.
        exists ((123 :: w ++ d :: q) ++ [125]); split; [rewrite Hr; norm_app; reflexivity|].
        split; [apply closed_edges; reflexivity|].
        intros f' r' Hf _; fuel_S f' Hf.
        norm_app; rewrite parse_value_obj, skip_ws_app by (auto; exact Hh).
        rewrite E3; apply (Ht f' r'); len_tac.
    + apply Z.eqb_eq in E3; subst; rewrite parse_value_arr in H.
      destruct (skip_ws_split r) as (w & Hr & Hw & Hh).
      destruct (skip_ws r) as [|d r2] eqn:Ew; [discriminate|].
      destruct (d =? 93) eqn:E3.
      * injection H as <- <-; apply Z.eqb_eq in E3; subst.
        exists ((91 :: w) ++ [93]); split; [norm_app; reflexivity|].
        split; [apply closed_edges; reflexivity|].
        intros f' r' Hf _; fuel_S f' Hf.
        norm_app; rewrite parse_value_arr, skip_ws_app by (auto; reflexivity).
        reflexivity.
      * destruct (IHe _ _ _ _ H) as ([|d' q] & Hq & Ht); [injection Hq as -> _; discriminate|].
        injection Hq as <- ->.
        exists ((91 :: w ++ d :: q) ++ [93]); split; [rewrite Hr; norm_app; reflexivity|].
        split; [apply closed_edges; reflexivity|].
        intros f' r' Hf _; fuel_S f' Hf.
        norm_app; rewrite parse_value_arr, skip_ws_app by (auto; exact Hh).
        rewrite E3; apply (Ht f' r'); len_tac.
    + rewrite parse_value_other in H by assumption.
      destruct (parse_constant (c :: r)) as [[v' rem']|] eqn:Ec.
      * injection H as <- <-.
        destruct (parse_constant_prefix _ _ _ Ec) as (p & Hx & He & Ht & (c0 & p' & -> & F1 & F2 & F3)).
        exists (c0 :: p'); split; [exact Hx|]; split; [exact He|].
        intros f' r' Hf _; fuel_S f' Hf.
        rewrite <- app_comm_cons, parse_value_other, app_comm_cons, Ht by assumption; reflexivity.
      * destruct (parse_number_prefix _ _ _ H) as ([|c0 p'] & Hx & He & Ht);
          [destruct He as [He _]; contradiction|].
        injection Hx as <- ->.
        exists (c :: p'); split; [reflexivity|]; split; [exact He|].
        intros f' r' Hf Hr; fuel_S f' Hf; destruct (Ht r' Hr) as [Hc Hn].
        rewrite <- app_comm_cons, parse_value_other, app_comm_cons, Hc by assumption.
        exact Hn.
  - (* the members of an object *)
    intros acc [|q0 s1] v rem H; [discriminate|].
    destruct (q0 =? 34) eqn:Eq; [|cbn [parse_members] in H; rewrite Eq in H; discriminate].
    apply Z.eqb_eq in Eq; subst; rewrite parse_members_S in H.
    destruct (scanstring s1) as [[key s2]|] eqn:Es; [|discriminate].
    destruct (skip_ws_split s2) as (w1 & Hs2 & Hw1 & _).
    destruct (skip_ws s2) as [|c s3] eqn:Ew1; [discriminate|].
    destruct (c =? 58) eqn:Ec; [|discriminate]; apply Z.eqb_eq in Ec; subst c.
    destruct (skip_ws_split s3) as (w2 & Hs3 & Hw2 & _).
    destruct (parse_value f (skip_ws s3)) as [[v1 s4]|] eqn:Ev; [|discriminate].
    destruct (IHv _ _ _ Ev) as (pv & Hpv & Hev & Htv).
    rewrite Hpv in Hs3.
    destruct (skip_ws_split s4) as (w3 & Hs4 & Hw3 & _).
    destruct (skip_ws s4) as [|d s5] eqn:Ew3; [discriminate|].
    destruct (scanstring_prefix _ _ _ Es) as (pk & Hs1 & Hpk & _ & Htk).
    pose proof (length_ne pk Hpk) as Lk; pose proof (length_ne pv (proj1 Hev)) as Lv.
    destruct (d =? 125) eqn:Ed.
    + injection H as <- <-; apply Z.eqb_eq in Ed; subst d.
      exists (34 :: pk ++ w1 ++ 58 :: w2 ++ pv ++ w3); split.
      { rewrite Hs1, Hs2, Hs3, Hs4; norm_app; reflexivity. }
      intros f' r' Hf; fuel_S f' Hf.
      norm_app; rewrite parse_members_S, Htk; cbv beta iota zeta.
      rewrite skip_ws_app by (auto; reflexivity); cbv beta iota zeta; rewrite Z.eqb_refl.
      rewrite skip_ws_app by (auto; apply edges_ok_ws_free; exact Hev).
      rewrite Htv by (try apply stop_ws_delim; auto; len_tac); cbv beta iota zeta.
      rewrite skip_ws_app by (auto; reflexivity); reflexivity.
    + destruct (d =? 44) eqn:Ed2; [|discriminate]; apply Z.eqb_eq in Ed2; subst d.
      destruct (skip_ws_split s5) as (w4 & Hs5 & Hw4 & Hh4).
      destruct (IHm _ _ _ _ H) as (q & Hq & Ht).
      rewrite Hq in Hs5, Hh4.
      exists (34 :: pk ++ w1 ++ 58 :: w2 ++ pv ++ w3 ++ 44 :: w4 ++ q); split.
      { rewrite Hs1, Hs2, Hs3, Hs4, Hs5; norm_app; reflexivity. }
      intros f' r' Hf; fuel_S f' Hf.
      norm_app; rewrite parse_members_S, Htk; cbv beta iota zeta.
      rewrite skip_ws_app by (auto; reflexivity); cbv beta iota zeta; rewrite Z.eqb_refl.
      rewrite skip_ws_app by (auto; apply edges_ok_ws_free; exact Hev).
      rewrite Htv by (try apply stop_ws_delim; auto; len_tac); cbv beta iota zeta.
      rewrite skip_ws_app by (auto; reflexivity).
      rewrite skip_ws_app by (auto; eapply ws_free_head_cons_app; exact Hh4).
      apply (Ht f' r'); len_tac.
  - (* the elements of an array *)
    intros acc x v rem H; rewrite parse_elements_S in H.
    destruct (parse_value f x) as [[v1 s1]|] eqn:Ev; [|discriminate].
    destruct (IHv _ _ _ Ev) as (pv & Hx & Hev & Htv).
    pose proof (length_ne pv (proj1 Hev)) as Lv.
    destruct (skip_ws_split s1) as (w & Hs1 & Hw & _).
    destruct (skip_ws s1) as [|d s2] eqn:Ew; [discriminate|].
    destruct (d =? 93) eqn:Ed.
    + injection H as <- <-; apply Z.eqb_eq in Ed; subst d.
      exists (pv ++ w); split; [rewrite Hx, Hs1; norm_app; reflexivity|].
      intros f' r' Hf; fuel_S f' Hf.
      norm_app; rewrite parse_elements_S, Htv by (try apply stop_ws_delim; auto; len_tac).
      cbv beta iota zeta; rewrite skip_ws_app by (auto; reflexivity); reflexivity.
    + destruct (d =? 44) eqn:Ed2; [|discriminate]; apply Z.eqb_eq in Ed2; subst d.
      destruct (skip_ws_split s2) as (w' & Hs2 & Hw' & Hh').
      destruct (IHe _ _ _ _ H) as (q & Hq & Ht).
      rewrite Hq in Hs2, Hh'.
      exists (pv ++ w ++ 44 :: w' ++ q); split; [rewrite Hx, Hs1, Hs2; norm_app; reflexivity|].
      intros f' r' Hf; fuel_S f' Hf.
      norm_app; rewrite parse_elements_S, Htv by (try apply stop_ws_delim; auto; len_tac).
      cbv beta iota zeta; rewrite skip_ws_app by (auto; reflexivity).
      rewrite skip_ws_app by (auto; eapply ws_free_head_cons_app; exact Hh').
      apply (Ht f' r'); len_tac.
Qed.

Lemma loads_core : forall doc v, loads doc = Ok v ->
  exists w1 p w2, doc = w1 ++ p ++ w2 /\ all_ws w1 /\ all_ws w2 /\ edges_ok p /\
    loads p = Ok v.
Proof.
  intros doc v H.
  assert (Hb : match doc with c :: _ => (c =? 65279) = false | [] => False end /\
    match parse_value (S (length doc)) (skip_ws doc) with
    | Some (v', r) => v' = v /\ skip_ws r = []
    | None => False
    end).
  { unfold loads in H; destruct doc as [|c t]; [discriminate|].
    destruct (c =? 65279); [discriminate|]; split; [reflexivity|].
    destruct (parse_value _ _) as [[v' r]|]; [|discriminate].
    destruct (skip_ws r); [injection H as ->; auto | discriminate]. }
  destruct Hb as [_ Hb].
  destruct (parse_value (S (length doc)) (skip_ws doc)) as [[v' r]|] eqn:Ev; [|contradiction].
  destruct Hb as [<- Hr].
  destruct (skip_ws_split doc) as (w1 & Hd & Hw1 & _).
  destruct (proj1 (parse_prefix _) _ _ _ Ev) as (p & Hp & He & Ht).
  destruct (skip_ws_split r) as (w2 & Hr2 & Hw2 & _); rewrite Hr, app_nil_r in Hr2.
  exists w1, p, w2; split; [rewrite Hd, Hp, Hr2; reflexivity|].
  split; [exact Hw1|]; split; [exact Hw2|]; split; [exact He|].
  destruct p as [|c p']; [destruct He; contradiction|].
  assert (Hs : skip_ws (c :: p') = c :: p').
  { pose proof (edges_ok_ws_free (c :: p') [] He) as Hh; rewrite app_nil_r in Hh.
    exact (skip_ws_app [] _ (Forall_nil _) Hh). }
  pose proof (proj1 (proj2 He)) as Hc; simpl in Hc.
  unfold edge_ok in Hc; apply andb_true_iff in Hc as [_ Hc]; apply negb_true_iff in Hc.
  pose proof (Ht (S (length (c :: p'))) [] ltac:(lia) eq_refl) as Hv; rewrite app_nil_r in Hv.
  unfold loads; cbv beta iota; rewrite Hc, Hs, Hv; reflexivity.
Qed.

Section Strip.
Variable P : Z -> bool.

Lemma lstrip_app_all : forall a b, Forall (fun c => P c = true) a ->
  lstrip_by P (a ++ b) = lstrip_by P b.
Proof. intros a b H; induction H as [|c a Hc _ IH]; [reflexivity|]; simpl; rewrite Hc; exact IH. Qed.

Lemma lstrip_id : forall s, P (hd 0 s) = false -> lstrip_by P s = s.
Proof. intros [|c s] H; [reflexivity|]; simpl in *; rewrite H; reflexivity. Qed.

Lemma rstrip_app_all : forall a b, Forall (fun c => P c = true) a ->
  rstrip_by P (b ++ a) = rstrip_by P b.
Proof.
  intros a b H; unfold rstrip_by; rewrite rev_app_distr, lstrip_app_all; [reflexivity|].
  apply Forall_rev; exact H.
Qed.

Lemma rstrip_id : forall s, s <> [] -> P (last s 0) = false -> rstrip_by P s = s.
Proof.
  intros s Hne H; unfold rstrip_by.
  rewrite (app_removelast_last 0 Hne) at 1; rewrite rev_app_distr; simpl; rewrite H; cbn [rev].
  rewrite rev_involutive; symmetry; apply app_removelast_last; exact Hne.
Qed.

Lemma strip_mid : forall a p b,
  Forall (fun c => P c = true) a -> Forall (fun c => P c = true) b ->
  p <> [] -> P (hd 0 p) = false -> P (last p 0) = false ->
  strip_by P (a ++ p ++ b) = p.
Proof.
  intros a p b Ha Hb Hne Hh Hl; unfold strip_by.
  rewrite lstrip_app_all, lstrip_id by (try exact Ha; rewrite hd_app_ne; assumption).
  rewrite rstrip_app_all, rstrip_id by assumption; reflexivity.
Qed.

Lemma strip_tail : forall p b, Forall (fun c => P c = true) b ->
  p <> [] -> P (hd 0 p) = false -> P (last p 0) = false -> strip_by P (p ++ b) = p.
Proof. intros p b Hb; exact (strip_mid [] p b (Forall_nil _) Hb). Qed.

Lemma strip_head : forall a p, Forall (fun c => P c = true) a ->
  p <> [] -> P (hd 0 p) = false -> P (last p 0) = false -> strip_by P (a ++ p) = p.
Proof.
  intros a p Ha Hne Hh Hl; pose proof (strip_mid a p [] Ha (Forall_nil _) Hne Hh Hl) as E.
  rewrite app_nil_r in E; exact E.
Qed.

Lemma strip_id : forall s, s <> [] -> P (hd 0 s) = false -> P (last s 0) = false ->
  strip_by P s = s.
Proof.
  intros s Hne Hh Hl; pose proof (strip_mid [] s [] (Forall_nil _) (Forall_nil _) Hne Hh Hl) as E.
  rewrite app_nil_r in E; exact E.
Qed.

End Strip.

Lemma Forall_repeat_eq : forall (Q : Z -> Prop) a k, Q a -> Forall Q (repeat a k).
Proof. intros Q a k H; induction k; simpl; constructor; assumption. Qed.

Lemma last_repeat : forall (a d : Z) k, last (repeat a (S k)) d = a.
Proof. intros a d k; induction k as [|k IH]; [reflexivity|]; exact IH. Qed.

Lemma all_ws_space : forall w, all_ws w -> Forall (fun c => py_isspace c = true) w.
Proof. intros w H; eapply Forall_impl; [|exact H]; apply json_ws_py_space. Qed.

Lemma ws_not_backtick : forall c, is_json_ws c = true -> is_backtick c = false.
Proof.
  intros c H; unfold is_json_ws in H.
  repeat (apply orb_true_iff in H as [H|H]); apply Z.eqb_eq in H; subst; reflexivity.
Qed.

Lemma edge_ok_parts : forall c, edge_ok c = true ->
  py_isspace c = false /\ is_backtick c = false.
Proof.
  intros c H; unfold edge_ok in H; apply andb_true_iff in H as [H _];
    apply andb_true_iff in H as [H1 H2]; apply negb_true_iff in H1, H2; auto.
Qed.

Lemma last_app_forall : forall (Q : Z -> bool) p w, p <> [] -> Q (last p 0) = false ->
  Forall (fun c => Q c = false) w -> Q (last (p ++ w) 0) = false.
Proof.
  intros Q p w Hp Hl Hw; destruct w as [|c w] using rev_ind.
  - rewrite app_nil_r; exact Hl.
  - rewrite app_assoc, last_last; apply Forall_app in Hw as [_ Hw]; inversion Hw; assumption.
Qed.

Lemma replace1_head : forall old new s, replace1 old new (old ++ s) = new ++ s.
Proof.
  intros old new s.
  assert (Hs : starts_with old (old ++ s) = true)
    by (induction old as [|a old IH]; simpl; [reflexivity | rewrite Z.eqb_refl; exact IH]).
  assert (Hk : skipn (length old) (old ++ s) = s)
    by (clear Hs; induction old as [|a old IH]; [reflexivity | exact IH]).
  assert (E : forall t, replace1 old new t =
    if starts_with old t then new ++ skipn (length old) t
    else match t with [] => [] | c :: r => c :: replace1 old new r end)
    by (intros [|c t]; reflexivity).
  rewrite E, Hs, Hk; reflexivity.
Qed.

Lemma clean_fence : forall n m w1 p w2, all_ws w1 -> all_ws w2 -> edges_ok p ->
  clean (code_fence n m (w1 ++ p ++ w2)) = p.
Proof.
  intros n m w1 p w2 Hw1 Hw2 (Hne & Hh & Hl).
  destruct (edge_ok_parts _ Hh) as [Hhs Hhb]; destruct (edge_ok_parts _ Hl) as [Hls Hlb].
  assert (Hbt : Forall (fun c => is_backtick c = true) (repeat 96 n))
    by (apply Forall_repeat_eq; reflexivity).
  assert (Hlast : forall l, last (l ++ p) 0 = last p 0)
    by (intros l; apply last_app_ne; exact Hne).
  unfold clean, code_fence, py_strip, py_strip_backticks.
  destruct m as [|m].
  - rewrite app_nil_r, !app_assoc.
    rewrite (strip_tail py_isspace _ w2) by
      (first [apply all_ws_space; exact Hw2
             | intros E; apply app_eq_nil in E as [_ E]; contradiction
             | destruct n; reflexivity
             | rewrite Hlast; exact Hls]).
    rewrite <- !app_assoc.
    rewrite (strip_head is_backtick (repeat 96 n)) by
      (first [exact Hbt | discriminate | reflexivity | rewrite !app_assoc, Hlast; exact Hlb]).
    rewrite replace1_head; cbn [app].
    apply strip_head; auto; apply all_ws_space; exact Hw1.
  - assert (Hbt' : Forall (fun c => is_backtick c = true) (repeat 96 (S m)))
      by (apply Forall_repeat_eq; reflexivity).
    rewrite (strip_id py_isspace (repeat 96 n ++ py "json" ++ (w1 ++ p ++ w2) ++ repeat 96 (S m))) by
      (first [ destruct n; discriminate
             | destruct n; reflexivity
             | rewrite !app_assoc, last_app_ne, last_repeat by discriminate; reflexivity ]).
    rewrite (app_assoc (py "json") (w1 ++ p ++ w2)).
    rewrite (strip_mid is_backtick (repeat 96 n) (py "json" ++ w1 ++ p ++ w2) (repeat 96 (S m)));
      [| exact Hbt | exact Hbt' | discriminate | reflexivity |].
    + rewrite replace1_head; cbn [app].
      apply strip_mid; auto; apply all_ws_space; assumption.
    + rewrite (app_assoc w1 p w2), (app_assoc (py "json") (w1 ++ p) w2).
      apply last_app_forall.
      * discriminate.
      * rewrite (app_assoc (py "json") w1 p), Hlast; exact Hlb.
      * eapply Forall_impl; [|exact Hw2]; apply ws_not_backtick.
Qed.

Lemma loads_fence_err : forall n m d, loads (code_fence n m d) = Err JSONDecodeError.
Proof. intros [|n] m d; reflexivity. Qed.

(** ** Lemmas on the outbound call, the builder and the recovery *)

(** [call_agi_agent] with a non-empty key: one request, then the reply. *)
Lemma call_agi_agent_key : forall cfg net sp up key,
  AGI_API_KEY cfg = Some key -> key <> [] ->
  call_agi_agent cfg net sp up =
  ([agi_request cfg key sp up],
   match net (agi_request cfg key sp up) with
   | TransportFailure => Err TransportError
   | Response st body =>
       if (200 <=? st) && (st <? 300) then
         let* data := loads body in extract_content data
       else Err (HTTPException st (py "AGI API error: " ++ body))
   end).
Proof.
  intros cfg net sp up key H Hne; unfold call_agi_agent; rewrite H.
  destruct key; [contradiction | reflexivity].
Qed.

Lemma is_2xx_true : forall st, is_2xx st -> (200 <=? st) && (st <? 300) = true.
Proof. intros st [H1 H2]; apply andb_true_iff; split; [apply Z.leb_le | apply Z.ltb_lt]; lia. Qed.

(** [analyze_logs] after a success reply. *)
Lemma analyze_logs_reply : forall s cfg net req key st body,
  AGI_API_KEY cfg = Some key -> key <> [] ->
  net (agi_request cfg key system_prompt (user_prompt req)) = Response st body ->
  is_2xx st ->
  analyze_logs s cfg net req =
  ([agi_request cfg key system_prompt (user_prompt req)],
   let* data := loads body in
   let* raw := extract_content data in
   match raw with
   | JStr raw_response => let* result := parse_agent_output raw_response in build_response s result
   | _ => Err TypeError
   end).
Proof.
  intros s cfg net req key st body Hk Hne Hnet Hst.
  unfold analyze_logs; rewrite (call_agi_agent_key _ _ _ _ _ Hk Hne), Hnet, is_2xx_true by exact Hst.
  f_equal; destruct (loads body); reflexivity.
Qed.

Lemma messages_payload : forall sp up,
  json_field (agi_payload sp up) (py "messages") =
      Some (JArr [JObj [(py "role", JStr (py "system")); (py "content", JStr sp)];
                  JObj [(py "role", JStr (py "user")); (py "content", JStr up)]]).
Proof. intros; vm_compute; reflexivity. Qed.

Lemma dict_get_or_some : forall k dflt d x, dict_get k d = Some x -> dict_get_or k dflt d = x.
Proof. intros k dflt d x H; unfold dict_get_or; rewrite H; reflexivity. Qed.

Lemma validate_str_inv : forall x t, validate_str x = Some t -> x = JStr t.
Proof. intros [] t H; try discriminate; inversion H; reflexivity. Qed.

Lemma validate_str_items_inv : forall l ss, validate_str_items l = Some ss -> l = map JStr ss.
Proof.
  induction l as [|x l IH]; intros ss H; simpl in H.
  - inversion H; reflexivity.
  - destruct (validate_str x) as [t|] eqn:E1; [|discriminate].
    destruct (validate_str_items l) as [ts|] eqn:E2; [|discriminate].
    inversion H; subst; simpl; rewrite (validate_str_inv _ _ E1), (IH ts eq_refl); reflexivity.
Qed.

Lemma validate_list_str_inv : forall x l, validate_list_str x = Some l -> x = JArr (map JStr l).
Proof. intros [] l H; try discriminate; simpl in H; rewrite (validate_str_items_inv _ _ H); reflexivity. Qed.

Lemma dict_get_or_field : forall kv k dflt, field_or_default (JObj kv) k dflt (dict_get_or k dflt kv).
Proof.
  intros kv k dflt; unfold field_or_default, dict_get_or, json_field.
  destruct (dict_get k kv); [left | right]; auto.
Qed.

(** Each item of a [detections] list gives the detection at the same place. *)
Lemma build_response_items : forall lax_str_to_float o items r,
  dict_get (py "detections") o = Some (JArr items) ->
  build_response lax_str_to_float (JObj o) = Ok r ->
  Forall2 (fun j d => make_detection j = Ok d) items (detections r).
Proof.
  intros s o items r Hd H.
  destruct (build_response_inv s o r H) as (items' & Hi & Hm & _).
  rewrite (dict_get_or_some _ _ _ _ Hd) in Hi; injection Hi as <-.
  exact (map_result_Forall2 _ _ _ _ (fun x y H => H) Hm).
Qed.

Lemma Forall2_In_l : forall {A B} (P : A -> B -> Prop) l l' x,
  Forall2 P l l' -> In x l -> exists y, P x y.
Proof.
  intros A B P l l' x H; induction H as [|a b l l' Hab _ IH]; intros Hin; [destruct Hin|].
  destruct Hin as [<-|Hin]; eauto.
Qed.

(** [lstrip] only removes a prefix; [strip] keeps a property of every character. *)
Lemma lstrip_suffix : forall P s, exists w, s = w ++ lstrip_by P s.
Proof.
  intros P s; induction s as [|c s IH]; simpl; [exists []; reflexivity|].
  destruct (P c); [destruct IH as [w Hw]; exists (c :: w); simpl; f_equal; exact Hw|].
  exists []; reflexivity.
Qed.

Lemma Forall_lstrip : forall (Q : Z -> Prop) P s, Forall Q s -> Forall Q (lstrip_by P s).
Proof.
  intros Q P s H; destruct (lstrip_suffix P s) as [w Hw]; rewrite Hw in H.
  apply Forall_app in H as [_ H]; exact H.
Qed.

Lemma Forall_strip : forall (Q : Z -> Prop) P s, Forall Q s -> Forall Q (strip_by P s).
Proof.
  intros Q P s H; unfold strip_by, rstrip_by; apply Forall_rev, Forall_lstrip, Forall_rev.
  apply Forall_lstrip; exact H.
Qed.

Lemma lstrip_snoc : forall P l (c : Z), P c = false ->
  exists l', lstrip_by P (l ++ [c]) = l' ++ [c].
Proof.
  intros P l c Hc; induction l as [|a l IH]; simpl.
  - rewrite Hc; exists []; reflexivity.
  - destruct (P a); [exact IH | exists (a :: l); reflexivity].
Qed.

(** [strip] and [replace] keep a first character they do not touch. *)
Lemma strip_keeps_head : forall P (c : Z) t, P c = false ->
  exists t', strip_by P (c :: t) = c :: t'.
Proof.
  intros P c t Hc; unfold strip_by, rstrip_by; simpl; rewrite Hc; simpl.
  destruct (lstrip_snoc P (rev t) c Hc) as [l' ->].
  rewrite rev_app_distr; simpl; eexists; reflexivity.
Qed.

Lemma replace1_keeps_head : forall old new (c : Z) t,
  starts_with old (c :: t) = false -> replace1 old new (c :: t) = c :: replace1 old new t.
Proof. intros old new c t H; destruct old; simpl in *; [discriminate | rewrite H; reflexivity]. Qed.

(** No JSON value starts with a blank character. *)
Lemma blank_range : forall c, blank c = true ->
  (9 <= c <= 13) \/ (28 <= c <= 32) \/ c = 96 \/ 133 <= c.
Proof.
  intros c H; unfold blank, py_isspace, is_backtick in H.
  repeat rewrite ?orb_true_iff, ?andb_true_iff, ?Z.leb_le, ?Z.eqb_eq in H; lia.
Qed.

Ltac zcase := repeat match goal with
  | |- context [?a =? ?b] => destruct (Z.eqb_spec a b); try lia
  | |- context [?a <=? ?b] => destruct (Z.leb_spec a b); try lia
  | |- context [?a <? ?b] => destruct (Z.ltb_spec a b); try lia
  end.

Lemma parse_value_blank : forall f c r, blank c = true ->
  parse_value f (c :: r) = None.
Proof.
  intros [|f] c r H; [reflexivity|]; apply blank_range in H.
  cbn [parse_value]; unfold parse_constant, parse_number, parse_unsigned, int_part.
  change (py "null") with [110; 117; 108; 108]; change (py "true") with [116; 114; 117; 101];
  change (py "false") with [102; 97; 108; 115; 101]; change (py "NaN") with [78; 97; 78];
  change (py "Infinity") with [73; 110; 102; 105; 110; 105; 116; 121];
  change (py "-Infinity") with [45; 73; 110; 102; 105; 110; 105; 116; 121].
  cbn [starts_with]; zcase; reflexivity.
Qed.

Lemma loads_blank : forall s, Forall (fun c => blank c = true) s -> loads s = Err JSONDecodeError.
Proof.
  intros [|c t] H; [reflexivity|]; unfold loads.
  destruct (Z.eqb_spec c 65279) as [->|_]; [inversion H; discriminate|].
  destruct (skip_ws_split (c :: t)) as (w & Hw & _ & _).
  assert (Hb : Forall (fun c => blank c = true) (skip_ws (c :: t)))
    by (rewrite Hw in H; apply Forall_app in H as [_ H]; exact H).
  destruct (skip_ws (c :: t)) as [|c' t']; [reflexivity|].
  inversion Hb as [|? ? Hc _]; subst; rewrite parse_value_blank by exact Hc; reflexivity.
Qed.

Lemma replace1_blank : forall s, Forall (fun c => blank c = true) s ->
  replace1 (py "json") [] s = s.
Proof.
  intros s H; induction H as [|c s Hc _ IH]; [reflexivity|].
  rewrite replace1_keeps_head, IH; [reflexivity|].
  change (py "json") with [106; 115; 111; 110]; cbn [starts_with].
  destruct (Z.eqb_spec 106 c) as [<-|_]; [discriminate Hc | reflexivity].
Qed.

(** ** Claims *)

(** C1: a JSON document wrapped in a code fence (backticks, the tag [json],
    the document, backticks) goes through the recovery step of
    [analyze_logs] to the same result as the document itself, namely the
    value [json.loads] reads from the document. *)
Theorem fenced_payload_parses_as_unwrapped : forall doc v n m,
  loads doc = Ok v ->
  parse_agent_output (code_fence n m doc) = parse_agent_output doc /\
  parse_agent_output doc = Ok v.
Proof.
  intros doc v n m H.
  destruct (loads_core doc v H) as (w1 & p & w2 & Hd & Hw1 & Hw2 & Hp & Hl).
  unfold parse_agent_output; rewrite loads_fence_err, H, Hd, clean_fence, Hl by assumption.
  split; reflexivity.
Qed.

(** C3: when [AGI_API_KEY] is unset, [analyze_logs] fails with status 500
    and the fixed message, and no request is sent. *)
Theorem missing_key_fails_without_call : forall lax_str_to_float base net req,
  analyze_logs lax_str_to_float {| AGI_API_KEY := None; AGI_BASE_URL := base |} net req
  = ([], Err (HTTPException 500 AGI_API_KEY_missing)).
Proof. intros; reflexivity. Qed.

(** C9: an empty [environment] or [question] gives the same user prompt, and
    the same run of [analyze_logs], as an absent one: the sentinel
    [Not specified] resp. [General threat hunting and incident triage.] is
    used for every falsy value. *)
Theorem empty_fields_use_sentinels : forall lax_str_to_float cfg net lg env q,
  user_prompt {| logs := lg; environment := Some []; question := q |}
    = user_prompt {| logs := lg; environment := None; question := q |} /\
  user_prompt {| logs := lg; environment := env; question := Some [] |}
    = user_prompt {| logs := lg; environment := env; question := None |} /\
  py_or (Some []) (py "Not specified") = py "Not specified" /\
  py_or (Some []) (py "General threat hunting and incident triage.")
    = py "General threat hunting and incident triage." /\
  analyze_logs lax_str_to_float cfg net {| logs := lg; environment := Some []; question := q |}
    = analyze_logs lax_str_to_float cfg net {| logs := lg; environment := None; question := q |} /\
  analyze_logs lax_str_to_float cfg net {| logs := lg; environment := env; question := Some [] |}
    = analyze_logs lax_str_to_float cfg net {| logs := lg; environment := env; question := None |}.
Proof. intros; repeat split. Qed.

(** C5: an absent top-level field is read as its default ([0.0], [""],
    empty lists): the response is the one built from the reply with that
    field set to the default; a reply with none of the fields gives the
    empty response. *)
Theorem absent_fields_defaulted : forall lax_str_to_float,
  (forall o k v, In (k, v) spec_response_defaults -> dict_get k o = None ->
     build_response lax_str_to_float (JObj o)
     = build_response lax_str_to_float (JObj (dict_set k v o))) /\
  (forall o, (forall k v, In (k, v) spec_response_defaults -> dict_get k o = None) ->
     build_response lax_str_to_float (JObj o) = Ok empty_response).
Proof.
  intros s; split.
  - intros o k v Hin Habs; apply build_response_ext.
    intros k' v' Hin'.
    simpl in Hin, Hin';
      destruct Hin as [E|[E|[E|[E|[E|[]]]]]]; inversion E; subst;
      destruct Hin' as [E'|[E'|[E'|[E'|[E'|[]]]]]]; inversion E'; subst;
      first [ symmetry; apply dict_get_or_set_absent; exact Habs
            | symmetry; apply dict_get_or_set_other; keys_differ ].
  - intros o Habs; unfold build_response, py_get, dict_get_or.
    rewrite (Habs (py "detections") (JArr [])), (Habs (py "overall_risk_score") (JFloat py_0_0)),
      (Habs (py "summary") (JStr [])), (Habs (py "recommended_actions") (JArr [])),
      (Habs (py "queries_to_run") (JArr [])) by (simpl; tauto).
    reflexivity.
Qed.

(** C6: in a returned response, a detection whose entry has no [severity]
    has severity ["Medium"], and one whose entry has no [indicators] has no
    indicators. *)
Theorem missing_severity_defaults_to_Medium : forall lax_str_to_float o ds r,
  dict_get (py "detections") o = Some (JArr ds) ->
  build_response lax_str_to_float (JObj o) = Ok r ->
  Forall2 (fun j d =>
             (json_field j (py "severity") = None -> severity d = py "Medium") /\
             (json_field j (py "indicators") = None -> indicators d = []))
          ds (detections r).
Proof.
  intros s o ds r Hds H.
  destruct (build_response_inv s o r H) as (items & Hit & Hmap & _).
  unfold dict_get_or in Hit; rewrite Hds in Hit; simpl in Hit; inversion Hit; subst items.
  refine (map_result_Forall2 _ _ _ _ _ Hmap); intros j d Hj.
  destruct (make_detection_obj _ _ Hj) as [kv ->]; simpl.
  destruct (make_detection_inv kv d Hj) as (_ & _ & H3 & H4).
  unfold dict_get_or in H3, H4; split; intros Habs.
  - rewrite Habs in H3; simpl in H3; congruence.
  - rewrite Habs in H4; simpl in H4; congruence.
Qed.

(** C10: a detection entry without [title] or [description] gets the empty
    string for it: the detection built is the one built from the entry with
    that field set to [""], so the absence never makes the request fail; in
    a returned response such detections have the empty string there. *)
Theorem missing_title_description_empty : forall lax_str_to_float,
  (forall kv, dict_get (py "title") kv = None ->
     make_detection (JObj kv) = make_detection (JObj (dict_set (py "title") (JStr []) kv))) /\
  (forall kv, dict_get (py "description") kv = None ->
     make_detection (JObj kv)
     = make_detection (JObj (dict_set (py "description") (JStr []) kv))) /\
  (forall o ds r,
     dict_get (py "detections") o = Some (JArr ds) ->
     build_response lax_str_to_float (JObj o) = Ok r ->
     Forall2 (fun j d =>
                (json_field j (py "title") = None -> title d = []) /\
                (json_field j (py "description") = None -> description d = []))
             ds (detections r)).
Proof.
  intros s; split; [|split].
  - intros kv H; apply make_detection_set_absent; [simpl; tauto | exact H].
  - intros kv H; apply make_detection_set_absent; [simpl; tauto | exact H].
  - intros o ds r Hds H.
    destruct (build_response_inv s o r H) as (items & Hit & Hmap & _).
    unfold dict_get_or in Hit; rewrite Hds in Hit; simpl in Hit; inversion Hit; subst items.
    refine (map_result_Forall2 _ _ _ _ _ Hmap); intros j d Hj.
    destruct (make_detection_obj _ _ Hj) as [kv ->]; simpl.
    destruct (make_detection_inv kv d Hj) as (H1 & H2 & _ & _).
    unfold dict_get_or in H1, H2; split; intros Habs.
    + rewrite Habs in H1; simpl in H1; congruence.
    + rewrite Habs in H2; simpl in H2; congruence.
Qed.

(** C8: the [overall_risk_score] of the reply is carried into the response
    as it is (an [int] as the equal [float]); replacing it by any float,
    whatever its range, gives the same response with that score. *)
Theorem risk_score_not_clamped : forall lax_str_to_float o r,
  build_response lax_str_to_float (JObj o) = Ok r ->
  (forall f, dict_get (py "overall_risk_score") o = Some (JFloat f) ->
     overall_risk_score r = f) /\
  (forall z, dict_get (py "overall_risk_score") o = Some (JInt z) ->
     overall_risk_score r = FDec z 0) /\
  (forall f, build_response lax_str_to_float
               (JObj (dict_set (py "overall_risk_score") (JFloat f) o))
             = Ok {| overall_risk_score := f; summary := summary r;
                     detections := detections r;
                     recommended_actions := recommended_actions r;
                     queries_to_run := queries_to_run r |}).
Proof.
  intros s o r H.
  destruct (build_response_inv s o r H) as (items & Hit & Hmap & Hsc & Hsu & Hra & Hqs).
  split; [|split].
  - intros f Hf; unfold dict_get_or in Hsc; rewrite Hf in Hsc; simpl in Hsc; congruence.
  - intros z Hz; unfold dict_get_or in Hsc; rewrite Hz in Hsc; simpl in Hsc; congruence.
  - intros f; unfold build_response, py_get.
    rewrite !(dict_get_or_set_other (py "overall_risk_score") (py "detections")),
      !(dict_get_or_set_other (py "overall_risk_score") (py "summary")),
      !(dict_get_or_set_other (py "overall_risk_score") (py "recommended_actions")),
      !(dict_get_or_set_other (py "overall_risk_score") (py "queries_to_run")) by keys_differ.
    unfold bind; rewrite Hit, Hmap.
    unfold dict_get_or at 1; rewrite dict_get_set_same.
    unfold new_LogAnalysisResponse; rewrite Hsu, Hra, Hqs; reflexivity.
Qed.

(** C4: when the reply text is refused by [json.loads] both directly and
    after the one cleanup, [analyze_logs] raises the decode error: no
    response is built and no other cleanup is tried. *)
Theorem unrecoverable_payload_fails : forall lax_str_to_float cfg net req sent raw,
  call_agi_agent cfg net system_prompt (user_prompt req) = (sent, Ok (JStr raw)) ->
  loads raw = Err JSONDecodeError ->
  loads (clean raw) = Err JSONDecodeError ->
  analyze_logs lax_str_to_float cfg net req = (sent, Err JSONDecodeError).
Proof.
  intros s cfg net req sent raw Hcall H1 H2.
  unfold analyze_logs; rewrite Hcall; simpl.
  unfold parse_agent_output; rewrite H1, H2; reflexivity.
Qed.

(** C2: when the reply text is a JSON object with every field of the schema
    at its type, the response carries exactly those values. *)
Theorem exact_payload_identity : forall lax_str_to_float cfg net req sent raw o
    score summ ds dets ra qs,
  call_agi_agent cfg net system_prompt (user_prompt req) = (sent, Ok (JStr raw)) ->
  loads raw = Ok (JObj o) ->
  dict_get (py "overall_risk_score") o = Some (JFloat score) ->
  dict_get (py "summary") o = Some (JStr summ) ->
  dict_get (py "detections") o = Some (JArr ds) ->
  Forall2 detection_matches ds dets ->
  dict_get (py "recommended_actions") o = Some (JArr (map JStr ra)) ->
  dict_get (py "queries_to_run") o = Some (JArr (map JStr qs)) ->
  analyze_logs lax_str_to_float cfg net req
  = (sent, Ok {| overall_risk_score := score; summary := summ; detections := dets;
                 recommended_actions := ra; queries_to_run := qs |}).
Proof.
  intros s cfg net req sent raw o score summ ds dets ra qs Hcall Hraw Hsc Hsu Hds Hdets Hra Hqs.
  unfold analyze_logs; rewrite Hcall; simpl.
  unfold parse_agent_output; rewrite Hraw; simpl.
  unfold build_response, py_get, dict_get_or; rewrite Hsc, Hsu, Hds, Hra, Hqs; simpl.
  rewrite (Forall2_map_result _ _ _ _ make_detection_matches Hdets); simpl.
  unfold new_LogAnalysisResponse; simpl; rewrite !validate_str_items_map; reflexivity.
Qed.

(** C7, as the code has it: a reply with a status outside [200..299] is
    raised as an [HTTPException] with the same status code, whose detail is
    ["AGI API error: "] followed by the reply body verbatim. *)
Theorem non_success_status_propagated : forall lax_str_to_float cfg net req key st body,
  AGI_API_KEY cfg = Some key -> key <> [] ->
  net (agi_request cfg key system_prompt (user_prompt req)) = Response st body ->
  ~ (200 <= st < 300) ->
  analyze_logs lax_str_to_float cfg net req
  = ([agi_request cfg key system_prompt (user_prompt req)],
     Err (HTTPException st (py "AGI API error: " ++ body))).
Proof.
  intros s cfg net req key st body Hkey Hne Hnet Hst.
  unfold analyze_logs, call_agi_agent; rewrite Hkey.
  destruct key as [|c key]; [contradiction|].
  rewrite Hnet.
  replace ((200 <=? st) && (st <? 300)) with false; [reflexivity|].
  symmetry; apply Bool.not_true_iff_false; intro Hb.
  apply andb_true_iff in Hb as [Hb1 Hb2]; apply Z.leb_le in Hb1; apply Z.ltb_lt in Hb2; lia.
Qed.

(** ** Further properties of [call_agi_agent] and [analyze_logs] *)

(** X1: [analyze_logs] sends no request exactly when [AGI_API_KEY] is unset or
    empty, and never more than one request. *)
Theorem request_sent_iff_key_set : forall lax_str_to_float cfg net req,
  (fst (analyze_logs lax_str_to_float cfg net req) = [] <->
   AGI_API_KEY cfg = None \/ AGI_API_KEY cfg = Some []) /\
  (length (fst (analyze_logs lax_str_to_float cfg net req)) <= 1)%nat.
Proof.
  intros s cfg net req; unfold analyze_logs, call_agi_agent.
  destruct (AGI_API_KEY cfg) as [[|c k]|]; simpl.
  - split; [split; [intros _; right; reflexivity | reflexivity] | lia].
  - split; [split; [discriminate | intros [H|H]; discriminate] | lia].
  - split; [split; [intros _; left; reflexivity | reflexivity] | lia].
Qed.

(** X2: with [AGI_API_KEY] set to the empty string the endpoint fails with
    the same status 500 and message as with no key, and sends nothing. *)
Theorem empty_key_rejected : forall lax_str_to_float cfg net req,
  AGI_API_KEY cfg = Some [] ->
  analyze_logs lax_str_to_float cfg net req = ([], Err (HTTPException 500 AGI_API_KEY_missing)).
Proof. intros s cfg net req H; unfold analyze_logs, call_agi_agent; rewrite H; reflexivity. Qed.

(** X3: with a non-empty key the single request goes to
    [AGI_BASE_URL/v1/chat/completions], carries [Authorization: Bearer key]
    and sends the system prompt and the user prompt as the two messages. *)
Theorem single_request_shape : forall lax_str_to_float cfg net req key,
  AGI_API_KEY cfg = Some key -> key <> [] ->
  exists o, fst (analyze_logs lax_str_to_float cfg net req) = [o] /\
    url o = AGI_BASE_URL cfg ++ py "/v1/chat/completions" /\
    In (py "Authorization", py "Bearer " ++ key) (headers o) /\
    json_field (payload o) (py "messages") =
      Some (JArr [JObj [(py "role", JStr (py "system")); (py "content", JStr system_prompt)];
                  JObj [(py "role", JStr (py "user")); (py "content", JStr (user_prompt req))]]).
Proof.
  intros s cfg net req key Hk Hne; unfold analyze_logs.
  rewrite (call_agi_agent_key _ _ _ _ _ Hk Hne).
  eexists; split; [reflexivity|]; split; [reflexivity|]; split; [left; reflexivity|].
  exact (messages_payload _ _).
Qed.

(** X4: with a non-empty environment and question, the user prompt contains
    the logs, the environment and the question verbatim. *)
Theorem user_prompt_carries_fields : forall lg e q,
  e <> [] -> q <> [] ->
  infix lg (user_prompt {| logs := lg; environment := Some e; question := Some q |}) /\
  infix e (user_prompt {| logs := lg; environment := Some e; question := Some q |}) /\
  infix q (user_prompt {| logs := lg; environment := Some e; question := Some q |}).
Proof.
  intros lg [|c e] [|d q] He Hq; try contradiction; unfold user_prompt; cbn [logs environment question py_or].
  split; [|split].
  - exists (nl ++ py "    ENVIRONMENT:" ++ nl ++ py "    " ++ (c :: e) ++ nl ++ nl ++
            py "    ANALYST QUESTION / FOCUS:" ++ nl ++ py "    " ++ (d :: q) ++ nl ++ nl ++
            py "    LOGS:" ++ nl ++ py "    "), (nl ++ py "    ").
    rewrite <- !app_assoc; reflexivity.
  - exists (nl ++ py "    ENVIRONMENT:" ++ nl ++ py "    "),
           (nl ++ nl ++ py "    ANALYST QUESTION / FOCUS:" ++ nl ++ py "    " ++ (d :: q) ++
            nl ++ nl ++ py "    LOGS:" ++ nl ++ py "    " ++ lg ++ nl ++ py "    ").
    rewrite <- !app_assoc; reflexivity.
  - exists (nl ++ py "    ENVIRONMENT:" ++ nl ++ py "    " ++ (c :: e) ++ nl ++ nl ++
            py "    ANALYST QUESTION / FOCUS:" ++ nl ++ py "    "),
           (nl ++ nl ++ py "    LOGS:" ++ nl ++ py "    " ++ lg ++ nl ++ py "    ").
    rewrite <- !app_assoc; reflexivity.
Qed.

(** X5: a transport failure of the request is the outcome of the endpoint. *)
Theorem transport_failure_propagates : forall lax_str_to_float cfg net req key,
  AGI_API_KEY cfg = Some key -> key <> [] ->
  net (agi_request cfg key system_prompt (user_prompt req)) = TransportFailure ->
  analyze_logs lax_str_to_float cfg net req
  = ([agi_request cfg key system_prompt (user_prompt req)], Err TransportError).
Proof.
  intros s cfg net req key Hk Hne Hnet; unfold analyze_logs.
  rewrite (call_agi_agent_key _ _ _ _ _ Hk Hne), Hnet; reflexivity.
Qed.


(** X7: a success reply whose JSON object has no [choices] key fails with
    [KeyError]. *)
Theorem missing_choices_KeyError : forall lax_str_to_float cfg net req key st body d,
  AGI_API_KEY cfg = Some key -> key <> [] ->
  net (agi_request cfg key system_prompt (user_prompt req)) = Response st body ->
  is_2xx st -> loads body = Ok (JObj d) -> dict_get (py "choices") d = None ->
  analyze_logs lax_str_to_float cfg net req
  = ([agi_request cfg key system_prompt (user_prompt req)], Err KeyError).
Proof.
  intros s cfg net req key st body d Hk Hne Hnet Hst Hb Hc.
  rewrite (analyze_logs_reply _ _ _ _ _ _ _ Hk Hne Hnet Hst), Hb; simpl.
  unfold extract_content, py_subscript_key; rewrite Hc; reflexivity.
Qed.

(** X8: a success reply with an empty [choices] list fails with [IndexError]. *)
Theorem empty_choices_IndexError : forall lax_str_to_float cfg net req key st body d,
  AGI_API_KEY cfg = Some key -> key <> [] ->
  net (agi_request cfg key system_prompt (user_prompt req)) = Response st body ->
  is_2xx st -> loads body = Ok (JObj d) -> dict_get (py "choices") d = Some (JArr []) ->
  analyze_logs lax_str_to_float cfg net req
  = ([agi_request cfg key system_prompt (user_prompt req)], Err IndexError).
Proof.
  intros s cfg net req key st body d Hk Hne Hnet Hst Hb Hc.
  rewrite (analyze_logs_reply _ _ _ _ _ _ _ Hk Hne Hnet Hst), Hb; simpl.
  unfold extract_content, py_subscript_key; rewrite Hc; reflexivity.
Qed.

(** X9: message content that is not a string fails with [TypeError] (from
    [json.loads] of a non-string). *)
Theorem content_not_string_TypeError : forall lax_str_to_float cfg net req key st body data c,
  AGI_API_KEY cfg = Some key -> key <> [] ->
  net (agi_request cfg key system_prompt (user_prompt req)) = Response st body ->
  is_2xx st -> loads body = Ok data -> extract_content data = Ok c ->
  (forall str, c <> JStr str) ->
  analyze_logs lax_str_to_float cfg net req
  = ([agi_request cfg key system_prompt (user_prompt req)], Err TypeError).
Proof.
  intros s cfg net req key st body data c Hk Hne Hnet Hst Hb Hc Hns.
  rewrite (analyze_logs_reply _ _ _ _ _ _ _ Hk Hne Hnet Hst), Hb; simpl; rewrite Hc; simpl.
  destruct c; try reflexivity; exfalso; eapply Hns; reflexivity.
Qed.

(** X10: a model output that parses to something other than a JSON object
    fails with [AttributeError] (no [.get]). *)
Theorem non_object_result_AttributeError : forall lax_str_to_float cfg net req key st body data
    raw v,
  AGI_API_KEY cfg = Some key -> key <> [] ->
  net (agi_request cfg key system_prompt (user_prompt req)) = Response st body ->
  is_2xx st -> loads body = Ok data -> extract_content data = Ok (JStr raw) ->
  parse_agent_output raw = Ok v -> (forall kv, v <> JObj kv) ->
  analyze_logs lax_str_to_float cfg net req
  = ([agi_request cfg key system_prompt (user_prompt req)], Err AttributeError).
Proof.
  intros s cfg net req key st body data raw v Hk Hne Hnet Hst Hb Hc Hp Hno.
  rewrite (analyze_logs_reply _ _ _ _ _ _ _ Hk Hne Hnet Hst), Hb; simpl; rewrite Hc; simpl.
  rewrite Hp; simpl.
  destruct v; try reflexivity; exfalso; eapply Hno; reflexivity.
Qed.

(** X11: an explicit [null] for the score, the summary or one of the two
    lists is not replaced by the default: the response fails validation. *)
Theorem null_field_not_defaulted : forall lax_str_to_float o k,
  In k [py "overall_risk_score"; py "summary"; py "recommended_actions"; py "queries_to_run"] ->
  dict_get k o = Some JNull ->
  forall r, build_response lax_str_to_float (JObj o) <> Ok r.
Proof.
  intros s o k Hin Hk r H.
  destruct (build_response_inv s o r H) as (items & _ & _ & H1 & H2 & H3 & H4).
  simpl in Hin; destruct Hin as [<-|[<-|[<-|[<-|[]]]]];
    rewrite (dict_get_or_some _ _ _ _ Hk) in *; discriminate.
Qed.

(** X12: a [detections] value that is [null], a boolean or a number is not
    iterable: [TypeError]. *)
Theorem detections_not_iterable_TypeError : forall lax_str_to_float o j,
  dict_get (py "detections") o = Some j ->
  match j with JNull | JBool _ | JInt _ | JFloat _ => True | _ => False end ->
  build_response lax_str_to_float (JObj o) = Err TypeError.
Proof.
  intros s o j Hd Hj; unfold build_response, py_get; rewrite (dict_get_or_some _ _ _ _ Hd).
  destruct j; try contradiction; reflexivity.
Qed.

(** X13: a non-empty string or non-empty object as [detections] is iterated
    to strings, which have no [.get]: [AttributeError]. *)
Theorem detections_string_or_dict_AttributeError : forall lax_str_to_float o j,
  dict_get (py "detections") o = Some j ->
  (exists c s, j = JStr (c :: s)) \/ (exists kv d, j = JObj (kv :: d)) ->
  build_response lax_str_to_float (JObj o) = Err AttributeError.
Proof.
  intros s o j Hd Hj; unfold build_response, py_get; rewrite (dict_get_or_some _ _ _ _ Hd).
  destruct Hj as [(c & t & ->) | (kv & d & ->)]; reflexivity.
Qed.

(** X14: the detections of a response are the items of the [detections]
    list, one for one and in order, each field taken from the item when
    present and defaulted otherwise. *)
Theorem detections_follow_items : forall lax_str_to_float o items r,
  dict_get (py "detections") o = Some (JArr items) ->
  build_response lax_str_to_float (JObj o) = Ok r ->
  Forall2 (fun j d =>
     field_or_default j (py "title") (JStr []) (JStr (title d)) /\
     field_or_default j (py "description") (JStr []) (JStr (description d)) /\
     field_or_default j (py "severity") (JStr (py "Medium")) (JStr (severity d)) /\
     field_or_default j (py "indicators") (JArr []) (JArr (map JStr (indicators d))))
    items (detections r).
Proof.
  intros s o items r Hd H.
  eapply Forall2_impl; [|exact (build_response_items s o items r Hd H)].
  intros j d Hj; destruct (make_detection_obj _ _ Hj) as [kv ->].
  destruct (make_detection_inv _ _ Hj) as (H1 & H2 & H3 & H4).
  apply validate_str_inv in H1, H2, H3; apply validate_list_str_inv in H4.
  rewrite <- H1, <- H2, <- H3, <- H4; repeat split; apply dict_get_or_field.
Qed.

(** X15: one item of [detections] that is not an object, or that has an
    explicit [null] field, makes the whole endpoint fail. *)
Theorem malformed_item_fails : forall lax_str_to_float o items j,
  dict_get (py "detections") o = Some (JArr items) -> In j items ->
  (forall kv, j <> JObj kv) \/
  (exists kv k, j = JObj kv /\
     In k [py "title"; py "description"; py "severity"; py "indicators"] /\
     dict_get k kv = Some JNull) ->
  forall r, build_response lax_str_to_float (JObj o) <> Ok r.
Proof.
  intros s o items j Hd Hin Hbad r H.
  destruct (Forall2_In_l _ _ _ _ (build_response_items s o items r Hd H) Hin) as [d Hj].
  destruct Hbad as [Hno | (kv & k & -> & Hk & Hnull)].
  - destruct (make_detection_obj _ _ Hj) as [kv ->]; exact (Hno kv eq_refl).
  - destruct (make_detection_inv _ _ Hj) as (H1 & H2 & H3 & H4).
    simpl in Hk; destruct Hk as [<-|[<-|[<-|[<-|[]]]]];
      rewrite (dict_get_or_some _ _ _ _ Hnull) in *; discriminate.
Qed.

(** X16: a model output starting with a byte order mark is rejected, by the
    first parse and by the fallback. *)
Theorem bom_reply_rejected : forall t,
  parse_agent_output (65279 :: t) = Err JSONDecodeError.
Proof.
  intros t; unfold parse_agent_output.
  change (loads (65279 :: t)) with (Err (A := json) JSONDecodeError); cbv iota.
  unfold clean, py_strip, py_strip_backticks.
  destruct (strip_keeps_head py_isspace 65279 t eq_refl) as [t1 ->].
  destruct (strip_keeps_head is_backtick 65279 t1 eq_refl) as [t2 ->].
  rewrite replace1_keeps_head by reflexivity.
  destruct (strip_keeps_head py_isspace 65279 (replace1 (py "json") [] t2) eq_refl) as [t3 ->].
  reflexivity.
Qed.

(** X17: a model output made only of whitespace and backticks, the empty
    output included, is rejected with [JSONDecodeError]. *)
Theorem blank_reply_rejected : forall raw,
  Forall (fun c => blank c = true) raw ->
  parse_agent_output raw = Err JSONDecodeError.
Proof.
  intros raw H; unfold parse_agent_output; rewrite loads_blank by exact H.
  unfold clean, py_strip, py_strip_backticks.
  apply loads_blank, Forall_strip; rewrite replace1_blank; apply Forall_strip, Forall_strip; exact H.
Qed.

(** ** Witnesses and counterexamples *)

Lemma fenced_payload_parses_as_unwrapped_witness :
  loads doc_fenced = Ok value_fenced /\
  parse_agent_output (code_fence 3 3 doc_fenced) = parse_agent_output doc_fenced /\
  parse_agent_output doc_fenced = Ok value_fenced.
Proof.
  split; [vm_compute; reflexivity|].
  apply (fenced_payload_parses_as_unwrapped doc_fenced value_fenced 3 3).
  vm_compute; reflexivity.
Defined.

Lemma missing_severity_defaults_to_Medium_witness :
  dict_get (py "detections") reply_sparse
    = Some (JArr [JObj [(py "indicators", JArr [JStr (py "10.0.0.5")])]]) /\
  build_response (fun _ => None) (JObj reply_sparse) = Ok response_sparse /\
  Forall2 (fun j d =>
             (json_field j (py "severity") = None -> severity d = py "Medium") /\
             (json_field j (py "indicators") = None -> indicators d = []))
          [JObj [(py "indicators", JArr [JStr (py "10.0.0.5")])]] (detections response_sparse).
Proof.
  split; [vm_compute; reflexivity|]. split; [vm_compute; reflexivity|].
  apply (missing_severity_defaults_to_Medium (fun _ => None) reply_sparse);
    vm_compute; reflexivity.
Defined.

Lemma missing_title_description_empty_witness :
  build_response (fun _ => None) (JObj reply_sparse) = Ok response_sparse /\
  Forall2 (fun j d =>
             (json_field j (py "title") = None -> title d = []) /\
             (json_field j (py "description") = None -> description d = []))
          [JObj [(py "indicators", JArr [JStr (py "10.0.0.5")])]] (detections response_sparse).
Proof.
  split; [vm_compute; reflexivity|].
  apply (proj2 (proj2 (missing_title_description_empty (fun _ => None))) reply_sparse);
    vm_compute; reflexivity.
Defined.

Lemma risk_score_not_clamped_witness :
  build_response (fun _ => None) (JObj reply_sparse) = Ok response_sparse /\
  overall_risk_score response_sparse = FDec 1505 (-1).
Proof.
  split; [vm_compute; reflexivity|].
  apply (proj1 (risk_score_not_clamped (fun _ => None) reply_sparse response_sparse
                  ltac:(vm_compute; reflexivity)));
    vm_compute; reflexivity.
Defined.

Lemma absent_fields_defaulted_witness :
  build_response (fun _ => None) (JObj []) = Ok empty_response /\
  build_response (fun _ => None) (JObj reply_sparse)
  = build_response (fun _ => None) (JObj (dict_set (py "summary") (JStr []) reply_sparse)).
Proof.
  split.
  - apply (proj2 (absent_fields_defaulted (fun _ => None))).
    intros k v _; reflexivity.
  - apply (proj1 (absent_fields_defaulted (fun _ => None))); vm_compute; [tauto | reflexivity].
Defined.

Lemma unrecoverable_payload_fails_witness :
  analyze_logs (fun _ => None) cfg_test net_prose req_scenario
  = ([agi_request cfg_test (py "sk-test") system_prompt (user_prompt req_scenario)],
     Err JSONDecodeError).
Proof.
  apply (unrecoverable_payload_fails _ _ _ _ _ (py "Sorry, I cannot analyze these logs."));
    vm_compute; reflexivity.
Defined.

Lemma exact_payload_identity_witness :
  analyze_logs (fun _ => None) cfg_test net_scenario req_scenario
  = ([agi_request cfg_test (py "sk-test") system_prompt (user_prompt req_scenario)],
     Ok {| overall_risk_score := FDec 725 (-1);
           summary := py "Repeated failed logins from one host.";
           detections := [detection_scenario];
           recommended_actions := [py "Block 10.0.0.5"];
           queries_to_run := [py "index=auth action=failure src=10.0.0.5"] |}).
Proof.
  apply (exact_payload_identity _ _ _ _ _ payload_scenario
           (match loads payload_scenario with Ok (JObj o) => o | _ => [] end)
           _ _ [match loads payload_scenario with
                | Ok (JObj o) => match dict_get (py "detections") o with
                                 | Some (JArr (j :: _)) => j | _ => JNull end
                | _ => JNull end]);
    try (vm_compute; reflexivity).
  constructor; [vm_compute; repeat split | constructor].
Defined.

Lemma non_success_status_propagated_witness :
  analyze_logs (fun _ => None) cfg_test net_401 req_scenario
  = ([agi_request cfg_test (py "sk-test") system_prompt (user_prompt req_scenario)],
     Err (HTTPException 401 (py "AGI API error: invalid api key"))).
Proof.
  apply (non_success_status_propagated _ _ _ _ (py "sk-test")); try (vm_compute; reflexivity).
  - discriminate.
  - lia.
Defined.

(** C7 as stated fails: for a 401 reply the detail is not the body text
    itself but the body prefixed with ["AGI API error: "]. *)
Lemma non_success_detail_not_verbatim :
  snd (analyze_logs (fun _ => None) cfg_test net_401 req_scenario)
  <> Err (HTTPException 401 (py "invalid api key")).
Proof. vm_compute; discriminate. Qed.

Lemma empty_key_rejected_witness :
  AGI_API_KEY cfg_empty_key = Some [] /\
  analyze_logs (fun _ => None) cfg_empty_key net_scenario req_scenario
  = ([], Err (HTTPException 500 AGI_API_KEY_missing)).
Proof. split; [reflexivity | apply empty_key_rejected; reflexivity]. Defined.

Lemma single_request_shape_witness :
  exists o, fst (analyze_logs (fun _ => None) cfg_test net_scenario req_scenario) = [o] /\
    url o = py "https://api.agi.tech" ++ py "/v1/chat/completions" /\
    In (py "Authorization", py "Bearer " ++ py "sk-test") (headers o) /\
    json_field (payload o) (py "messages") =
      Some (JArr [JObj [(py "role", JStr (py "system")); (py "content", JStr system_prompt)];
                  JObj [(py "role", JStr (py "user")); (py "content", JStr (user_prompt req_scenario))]]).
Proof.
  apply (single_request_shape _ cfg_test net_scenario req_scenario (py "sk-test"));
    [reflexivity | discriminate].
Defined.

Lemma user_prompt_carries_fields_witness :
  infix (logs req_scenario) (user_prompt req_scenario) /\
  infix (py "AWS") (user_prompt req_scenario) /\
  infix (py "brute force?") (user_prompt req_scenario).
Proof. apply user_prompt_carries_fields; discriminate. Defined.

Lemma transport_failure_propagates_witness :
  analyze_logs (fun _ => None) cfg_test net_down req_scenario
  = ([agi_request cfg_test (py "sk-test") system_prompt (user_prompt req_scenario)],
     Err TransportError).
Proof. apply transport_failure_propagates; [reflexivity | discriminate | reflexivity]. Defined.


Lemma missing_choices_KeyError_witness :
  analyze_logs (fun _ => None) cfg_test net_no_choices req_scenario
  = ([agi_request cfg_test (py "sk-test") system_prompt (user_prompt req_scenario)],
     Err KeyError).
Proof.
  apply (missing_choices_KeyError _ _ _ _ (py "sk-test") 200 (pyq "{'error': 'overloaded'}")
           [(py "error", JStr (py "overloaded"))]);
    [reflexivity | discriminate | reflexivity | unfold is_2xx; lia
    | vm_compute; reflexivity | vm_compute; reflexivity].
Defined.

Lemma empty_choices_IndexError_witness :
  analyze_logs (fun _ => None) cfg_test net_empty_choices req_scenario
  = ([agi_request cfg_test (py "sk-test") system_prompt (user_prompt req_scenario)],
     Err IndexError).
Proof.
  apply (empty_choices_IndexError _ _ _ _ (py "sk-test") 200 (pyq "{'choices': []}")
           [(py "choices", JArr [])]);
    [reflexivity | discriminate | reflexivity | unfold is_2xx; lia
    | vm_compute; reflexivity | vm_compute; reflexivity].
Defined.

Lemma content_not_string_TypeError_witness :
  analyze_logs (fun _ => None) cfg_test net_numeric_content req_scenario
  = ([agi_request cfg_test (py "sk-test") system_prompt (user_prompt req_scenario)],
     Err TypeError).
Proof.
  apply (content_not_string_TypeError _ _ _ _ (py "sk-test") 200
           (pyq "{'choices': [{'message': {'content': 42}}]}") data_numeric_content (JInt 42));
    [reflexivity | discriminate | reflexivity | unfold is_2xx; lia
    | vm_compute; reflexivity | vm_compute; reflexivity | intros str; discriminate].
Defined.

Lemma non_object_result_AttributeError_witness :
  analyze_logs (fun _ => None) cfg_test net_array_content req_scenario
  = ([agi_request cfg_test (py "sk-test") system_prompt (user_prompt req_scenario)],
     Err AttributeError).
Proof.
  apply (non_object_result_AttributeError _ _ _ _ (py "sk-test") 200
           (pyq "{'choices': [{'message': {'content': '[1]'}}]}") data_array_content
           (py "[1]") (JArr [JInt 1]));
    [reflexivity | discriminate | reflexivity | unfold is_2xx; lia
    | vm_compute; reflexivity | vm_compute; reflexivity | vm_compute; reflexivity
    | intros kv; discriminate].
Defined.

Lemma null_field_not_defaulted_witness :
  build_response (fun _ => None) (JObj [(py "summary", JNull)]) <> Ok empty_response.
Proof.
  apply (null_field_not_defaulted _ _ (py "summary"));
    [right; left; reflexivity | vm_compute; reflexivity].
Defined.

Lemma detections_not_iterable_TypeError_witness :
  build_response (fun _ => None) (JObj [(py "detections", JNull)]) = Err TypeError.
Proof. apply (detections_not_iterable_TypeError _ _ JNull); [vm_compute; reflexivity | exact I]. Defined.

Lemma detections_string_or_dict_AttributeError_witness :
  build_response (fun _ => None)
    (JObj [(py "detections", JObj [(py "title", JStr (py "Brute force"))])]) = Err AttributeError.
Proof.
  apply (detections_string_or_dict_AttributeError _ _
           (JObj [(py "title", JStr (py "Brute force"))]));
    [vm_compute; reflexivity | right; eexists; eexists; reflexivity].
Defined.

Lemma detections_follow_items_witness :
  build_response (fun _ => None) (JObj reply_sparse) = Ok response_sparse /\
  Forall2 (fun j d =>
     field_or_default j (py "title") (JStr []) (JStr (title d)) /\
     field_or_default j (py "description") (JStr []) (JStr (description d)) /\
     field_or_default j (py "severity") (JStr (py "Medium")) (JStr (severity d)) /\
     field_or_default j (py "indicators") (JArr []) (JArr (map JStr (indicators d))))
    [JObj [(py "indicators", JArr [JStr (py "10.0.0.5")])]] (detections response_sparse).
Proof.
  split; [vm_compute; reflexivity|].
  apply (detections_follow_items (fun _ => None) reply_sparse); vm_compute; reflexivity.
Defined.

Lemma malformed_item_fails_witness :
  build_response (fun _ => None) (JObj [(py "detections", JArr [JStr (py "Brute force")])])
  <> Ok empty_response.
Proof.
  apply (malformed_item_fails _ _ [JStr (py "Brute force")] (JStr (py "Brute force")));
    [vm_compute; reflexivity | left; reflexivity | left; intros kv; discriminate].
Defined.

Lemma blank_reply_rejected_witness :
  parse_agent_output (py " ``` ") = Err JSONDecodeError.
Proof. apply blank_reply_rejected; vm_compute; repeat constructor. Defined.
